(** * OpenAlchemy package registry: the write workflow and its stores

    A shallow embedding of
    - [database/open_alchemy/package_database/dynamodb.py] (class [Database]),
    - [api/library/specs/versions/__init__.py] (endpoints [list_] and [put]),
    with the collaborators those files import but do not define
    ([models], [config], the storage facade, [helpers.spec]) taken as
    interfaces, and an in-memory implementation of those interfaces that
    follows the written design of the stores.

    Conventions.  A Python [int] is a [Z].  A Python [str] is a [string]
    holding the UTF-8 encoding of the text, so that [bytes.decode()] is
    UTF-8 validation.  A call that may raise returns [outcome A]: [inl e]
    is "raised [e]", [inr a] is "returned [a]". *)

From stdpp Require Import gmap strings list fin_maps pretty sorting.
From Stdlib Require Import ZArith.
From Stdlib.Strings Require Import Byte.

Open Scope Z_scope.

(** ** Python runtime *)

(** The exception classes the two modules name, raise or catch. *)
Inductive exception_class : Set :=
| KeyError                (* builtins *)
| UnicodeDecodeError      (* builtins *)
| LoadSpecError           (* api: exceptions.LoadSpecError *)
| StorageError            (* api: storage.exceptions.StorageError *)
| ObjectNotFoundError     (* api: storage.exceptions.ObjectNotFoundError *)
| DatabaseError           (* api: database.exceptions.DatabaseError *)
| NotFoundError.          (* package_database: exceptions.NotFoundError *)

#[global] Instance exception_class_eq_dec : EqDecision exception_class.
Proof. solve_decision. Defined.

(** An exception instance: its class and [str(exc)]. *)
Record exception : Set := Raise { exc_class : exception_class; exc_str : string }.

#[global] Instance exception_eq_dec : EqDecision exception.
Proof. solve_decision. Defined.

(** [issubclass child parent].  The only inheritance between the classes
    above is [ObjectNotFoundError(StorageError)]: both endpoints catch
    the former before the latter. *)
Definition issubclass (child parent : exception_class) : bool :=
  bool_decide (child = parent)
  || (bool_decide (child = ObjectNotFoundError) && bool_decide (parent = StorageError)).

Definition isinstance (exc : exception) (c : exception_class) : bool :=
  issubclass (exc_class exc) c.

Definition outcome (A : Type) : Type := exception + A.

#[global] Instance outcome_ret : MRet outcome := λ A a, inr a.

#[global] Instance outcome_bind : MBind outcome := λ A B k r,
  match r with
  | inl e => inl e
  | inr a => k a
  end.

(** *** [bytes.decode()]: strict UTF-8 *)

Definition between (lo hi b : N) : bool := ((lo <=? b) && (b <=? hi))%N.

Definition continuation (b : N) : bool := between 128 191 b.

(** Range of the second byte after a three-byte lead: no overlong
    forms ([E0]) and no surrogates ([ED]). *)
Definition second_of_three (lead b : N) : bool :=
  if (lead =? 224)%N then between 160 191 b
  else if (lead =? 237)%N then between 128 159 b
  else continuation b.

(** Range of the second byte after a four-byte lead: no overlong forms
    ([F0]) and nothing above U+10FFFF ([F4]). *)
Definition second_of_four (lead b : N) : bool :=
  if (lead =? 240)%N then between 144 191 b
  else if (lead =? 244)%N then between 128 143 b
  else continuation b.

Fixpoint utf8_valid (bs : list N) : bool :=
  match bs with
  | [] => true
  | b0 :: r0 =>
      if (b0 <=? 127)%N then utf8_valid r0
      else
        match r0 with
        | [] => false
        | b1 :: r1 =>
            if between 194 223 b0 then continuation b1 && utf8_valid r1
            else
              match r1 with
              | [] => false
              | b2 :: r2 =>
                  if between 224 239 b0 then
                    second_of_three b0 b1 && continuation b2 && utf8_valid r2
                  else
                    match r2 with
                    | [] => false
                    | b3 :: r3 =>
                        between 240 244 b0 && second_of_four b0 b1
                        && continuation b2 && continuation b3 && utf8_valid r3
                    end
              end
        end
  end.

(** [body.decode()] with the default codec and error handler. *)
Definition decode (body : list byte) : outcome string :=
  if utf8_valid (Byte.to_N <$> body) then inr (String.string_of_list_byte body)
  else inl (Raise UnicodeDecodeError "'utf-8' codec can't decode bytes").

(** ** [open_alchemy.package_database] *)

Module types.
Definition TSub := string.
Definition TSpecId := string.
Definition TSpecVersion := string.
Definition TSpecModelCount := Z.
Definition TOptSpecTitle := option string.
Definition TOptSpecDescription := option string.
Definition TCredentialsId := string.
Definition TCredentialsPublicKey := string.
Definition TCredentialsSecretKeyHash := string.
Definition TCredentialsSalt := string.

(** Modelled from the spec: one entry of [TSpecInfoList], the summary of
    a stored version (spec id, version, title, description, model count,
    update time); [types] is missing. *)
Record TSpecInfo : Set := {
  spec_id : TSpecId;
  spec_version : TSpecVersion;
  spec_title : TOptSpecTitle;
  spec_description : TOptSpecDescription;
  spec_model_count : TSpecModelCount;
  spec_updated_at : Z;
}.
Definition TSpecInfoList := list TSpecInfo.

(** Modelled from the spec: what is shown of a credential record;
    [types] is missing. *)
Record TCredentialsInfo : Set := {
  credentials_id : TCredentialsId;
  credentials_public_key : TCredentialsPublicKey;
  credentials_salt : TCredentialsSalt;
}.

(** Modelled from the spec: the credential auth info a public key
    resolves to; [types] is missing. *)
Record CredentialsAuthInfo : Set := {
  auth_sub : TSub;
  auth_secret_key_hash : TCredentialsSecretKeyHash;
  auth_salt : TCredentialsSalt;
}.

(** What the free tier check returns, with the two fields it is built
    from and read by. *)
Record TCheckWouldExceedFreeTierReturn : Set := {
  result : bool;
  reason : option string;
}.
End types.

Module config.
(** What [config.get()] returns, as far as this module reads it. *)
Record TConfig : Set := { free_tier_model_count : Z }.
End config.

(** The part of [models] that [Database] calls, over a table state [D].
    Lookups return a value or raise; writes return the new state and
    the exception they raised, if any. *)
Class Models (D : Type) := {
  Spec_count_customer_models : D → types.TSub → outcome Z;
  Spec_create_update_item :
    D → types.TSub → types.TSpecId → types.TSpecVersion → types.TSpecModelCount →
    types.TOptSpecTitle → types.TOptSpecDescription → option exception * D;
  Spec_get_latest_version : D → types.TSub → types.TSpecId → outcome types.TSpecVersion;
  Spec_list_versions : D → types.TSub → types.TSpecId → outcome types.TSpecInfoList;
  Credentials_get_item :
    D → types.TSub → types.TCredentialsId → outcome (option types.TCredentialsInfo);
  Credentials_get_user :
    D → types.TCredentialsPublicKey → outcome (option types.CredentialsAuthInfo);
}.

Module Database.
Section Database.
Context {D : Type} `{!Models D}.
Import types config.

Definition count_customer_models (db : D) (sub : TSub) : outcome Z :=
  Spec_count_customer_models db sub.

(** The text of the reason, an f-string over three integers. *)
Definition exceeded_reason (ceiling current_count model_count : Z) : string :=
  "with this spec the maximum number of "
  +:+ pretty ceiling +:+ " models for the free "
  +:+ "tier would be exceeded, current models count: " +:+ pretty current_count
  +:+ ", models in this spec: " +:+ pretty model_count.

Definition check_would_exceed_free_tier
    (cfg : TConfig) (db : D) (sub : TSub) (model_count : TSpecModelCount)
    : outcome TCheckWouldExceedFreeTierReturn :=
  current_count ← count_customer_models db sub;
  if current_count + model_count >? free_tier_model_count cfg then
    inr {| result := true;
           reason := Some (exceeded_reason (free_tier_model_count cfg)
                             current_count model_count) |}
  else inr {| result := false; reason := None |}.

Definition create_update_spec
    (db : D) (sub : TSub) (id_ : TSpecId) (version : TSpecVersion)
    (model_count : TSpecModelCount) (title : TOptSpecTitle)
    (description : TOptSpecDescription) : option exception * D :=
  Spec_create_update_item db sub id_ version model_count title description.

Definition get_latest_spec_version (db : D) (sub : TSub) (id_ : TSpecId)
    : outcome TSpecVersion :=
  Spec_get_latest_version db sub id_.

Definition list_spec_versions (db : D) (sub : TSub) (id_ : TSpecId)
    : outcome TSpecInfoList :=
  spec_infos ← Spec_list_versions db sub id_;
  match spec_infos with
  | [] => inl (Raise NotFoundError ("could not find spec id " +:+ id_))
  | _ :: _ => inr spec_infos
  end.

Definition get_credentials (db : D) (sub : TSub) (id_ : TCredentialsId)
    : outcome (option TCredentialsInfo) :=
  Credentials_get_item db sub id_.

Definition get_user (db : D) (public_key : TCredentialsPublicKey)
    : outcome (option CredentialsAuthInfo) :=
  Credentials_get_user db public_key.
End Database.
End Database.

(** ** [api.library] *)

Module server.
(** [server.Response(response, status=..., mimetype=...)]. *)
Record Response : Set := {
  response : option string;
  status : Z;
  mimetype : option string;
}.

(** [server.Request.request], as far as the endpoints read it:
    [headers k] is the value of [headers[k]], [None] when the lookup
    raises [KeyError]. *)
Record Request : Set := { headers : string → option string }.
End server.

Module spec.
(** What [helpers.spec.process] returns. *)
Record SpecInfo : Set := {
  spec_str : string;
  version : types.TSpecVersion;
  title : types.TOptSpecTitle;
  description : types.TOptSpecDescription;
  model_count : types.TSpecModelCount;
}.
End spec.

(** The storage facade, over a blob store state [S]. *)
Class Storage (S : Type) := {
  storage_create_update_spec :
    S → types.TSub → types.TSpecId → types.TSpecVersion → string → option exception * S;
  storage_get_spec_versions :
    S → types.TSub → types.TSpecId → outcome (list types.TSpecVersion);
}.

(** The two stores an endpoint runs against. *)
Record World (S D : Type) : Type := { storage : S; database : D }.
Arguments storage {S D} _.
Arguments database {S D} _.

(** A call an endpoint made on a facade, in the order it was made;
    a write also records the exception it raised, if any. *)
Inductive event : Set :=
| CheckWouldExceedFreeTier (sub : types.TSub) (model_count : types.TSpecModelCount)
| GetSpecVersions (user : types.TSub) (spec_id : types.TSpecId)
| StorageCreateUpdateSpec
    (user : types.TSub) (spec_id : types.TSpecId) (version : types.TSpecVersion)
    (spec_str : string) (raised : option exception)
| DatabaseCreateUpdateSpec
    (sub : types.TSub) (spec_id : types.TSpecId) (version : types.TSpecVersion)
    (title : types.TOptSpecTitle) (description : types.TOptSpecDescription)
    (model_count : types.TSpecModelCount) (raised : option exception).

Definition is_storage_write (ev : event) : bool :=
  match ev with StorageCreateUpdateSpec _ _ _ _ _ => true | _ => false end.

Definition is_database_write (ev : event) : bool :=
  match ev with DatabaseCreateUpdateSpec _ _ _ _ _ _ _ => true | _ => false end.

Definition is_write (ev : event) : bool := is_storage_write ev || is_database_write ev.

Module versions.
Section versions.
Context {S D : Type} `{!Storage S, !Models D}.
(** [helpers.spec.process(spec_str=..., language=...)] and [json.dumps]. *)
Variable process : string → string → outcome spec.SpecInfo.
Variable json_dumps : list types.TSpecVersion → string.
Import types server spec.

(** An endpoint body: from the stores it starts in to what it returns
    or raises, the stores it leaves and the facade calls it made. *)
Definition M (A : Type) : Type := World S D → outcome A * World S D * list event.

#[global] Instance M_ret : MRet M := λ A a w, (inr a, w, []).

#[global] Instance M_bind : MBind M := λ A B k m w,
  match m w with
  | (inl e, w1, t1) => (inl e, w1, t1)
  | (inr a, w1, t1) =>
      match k a w1 with
      | (r, w2, t2) => (r, w2, t1 ++ t2)
      end
  end.

Definition lift {A : Type} (r : outcome A) : M A := λ w, (r, w, []).

(** [try: body except C1: h1 except C2: h2 ...]: the first clause whose
    class the exception is an instance of handles it. *)
Definition try_except {A : Type} (body : M A)
    (clauses : list (exception_class * (exception → M A))) : M A := λ w,
  match body w with
  | (inr a, w1, t1) => (inr a, w1, t1)
  | (inl e, w1, t1) =>
      match find (λ c, isinstance e c.1) clauses with
      | Some (_, handler) =>
          match handler e w1 with
          | (r, w2, t2) => (r, w2, t1 ++ t2)
          end
      | None => (inl e, w1, t1)
      end
  end.

(** [server.Request.request.headers[key]]. *)
Definition header (request : Request) (key : string) : M string :=
  match headers request key with
  | Some v => mret v
  | None => lift (inl (Raise KeyError key))
  end.

(** *** Facade calls *)

Definition get_spec_versions (user : TSub) (spec_id : TSpecId)
    : M (list TSpecVersion) := λ w,
  (storage_get_spec_versions (storage w) user spec_id, w,
   [GetSpecVersions user spec_id]).

Definition check_would_exceed_free_tier (cfg : config.TConfig)
    (sub : TSub) (model_count : TSpecModelCount)
    : M TCheckWouldExceedFreeTierReturn := λ w,
  (Database.check_would_exceed_free_tier cfg (database w) sub model_count, w,
   [CheckWouldExceedFreeTier sub model_count]).

Definition storage_create_update (user : TSub) (spec_id : TSpecId)
    (version : TSpecVersion) (spec_str : string) : M unit := λ w,
  match storage_create_update_spec (storage w) user spec_id version spec_str with
  | (raised, s') =>
      (from_option inl (inr ()) raised,
       {| storage := s'; database := database w |},
       [StorageCreateUpdateSpec user spec_id version spec_str raised])
  end.

Definition database_create_update (sub : TSub) (spec_id : TSpecId)
    (version : TSpecVersion) (title : TOptSpecTitle)
    (description : TOptSpecDescription) (model_count : TSpecModelCount)
    : M unit := λ w,
  match Database.create_update_spec (database w) sub spec_id version
          model_count title description with
  | (raised, d') =>
      (from_option inl (inr ()) raised,
       {| storage := storage w; database := d' |},
       [DatabaseCreateUpdateSpec sub spec_id version title description
          model_count raised])
  end.

(** *** Endpoints *)

Definition list_ (spec_id : TSpecId) (user : TSub) : M Response :=
  try_except
    (spec_versions ← get_spec_versions user spec_id;
     mret {| response := Some (json_dumps spec_versions);
             status := 200;
             mimetype := Some "application/json" |})
    [ (ObjectNotFoundError, λ _,
        mret {| response := Some ("could not find spec with id " +:+ spec_id);
                status := 404;
                mimetype := Some "text/plain" |});
      (StorageError, λ _,
        mret {| response :=
                  Some "something went wrong whilst reading from the storage";
                status := 500;
                mimetype := Some "text/plain" |}) ].

Definition version_mismatch (version derived : TSpecVersion) : Response :=
  {| response := Some ("the requested version " +:+ version
                       +:+ " does not match the version of the "
                       +:+ "spec " +:+ derived);
     status := 400;
     mimetype := Some "text/plain" |}.

Definition put (cfg : config.TConfig) (request : Request)
    (body : list byte) (spec_id : TSpecId) (version : TSpecVersion)
    (user : TSub) : M Response :=
  language ← header request "X-LANGUAGE";
  try_except
    (text ← lift (decode body);
     spec_info ← lift (process text language);
     if negb (String.eqb version (spec.version spec_info)) then
       mret (version_mismatch version (spec.version spec_info))
     else
       free_tier_check ←
         check_would_exceed_free_tier cfg user (spec.model_count spec_info);
       if result free_tier_check then
         mret {| response := reason free_tier_check;
                 status := 402;
                 mimetype := Some "text/plain" |}
       else
         _ ← storage_create_update user spec_id (spec.version spec_info)
               (spec.spec_str spec_info);
         _ ← database_create_update user spec_id (spec.version spec_info)
               (spec.title spec_info) (spec.description spec_info)
               (spec.model_count spec_info);
         mret {| response := None; status := 204; mimetype := None |})
    [ (LoadSpecError, λ exc,
        mret {| response := Some ("the spec is not valid, " +:+ exc_str exc);
                status := 400;
                mimetype := Some "text/plain" |});
      (StorageError, λ _,
        mret {| response := Some "something went wrong whilst storing the spec";
                status := 500;
                mimetype := Some "text/plain" |});
      (DatabaseError, λ _,
        mret {| response :=
                  Some "something went wrong whilst updating the database";
                status := 500;
                mimetype := Some "text/plain" |}) ].
End versions.
End versions.

(** ** In-memory stores

    Neither [models] (the tables behind [Database]) nor the storage
    facade is part of the two modules above.  The implementations below
    follow the written design of the two stores. *)

Module memory.
Import types.

(** Modelled from the spec: the metadata record of one stored version
    (title, description, model count, created and updated timestamps);
    [models.Spec] itself is missing. *)
Record SpecItem : Set := {
  item_model_count : TSpecModelCount;
  item_title : TOptSpecTitle;
  item_description : TOptSpecDescription;
  item_created_at : Z;
  item_updated_at : Z;
}.

(** Modelled from the spec: a credential record (public key, secret key
    hash, salt); [models.Credentials] itself is missing. *)
Record CredentialsItem : Set := {
  item_public_key : TCredentialsPublicKey;
  item_secret_key_hash : TCredentialsSecretKeyHash;
  item_salt : TCredentialsSalt;
}.

(** Modelled from the spec: the metadata store, a mapping from
    (customer, spec id, version) to metadata and from (customer,
    credential id) to credential records, with the time of the next
    write and whether the backing store can be reached. *)
Record Tables : Type := {
  specs : gmap (TSub * TSpecId * TSpecVersion) SpecItem;
  credentials : gmap (TSub * TCredentialsId) CredentialsItem;
  clock : Z;
  available : bool;
}.

(** Modelled from the spec: the fault of a backing store that cannot be
    reached, in the class [put] catches for the database. *)
Definition unavailable : exception :=
  Raise DatabaseError "the database is not available".

(** Modelled from the spec: the stored versions of one spec id of one
    customer, for the missing [models.Spec] queries. *)
Definition rows_of (db : Tables) (sub : TSub) (id_ : TSpecId)
    : list (TSub * TSpecId * TSpecVersion * SpecItem) :=
  filter (λ row, row.1.1.1 = sub ∧ row.1.1.2 = id_) (map_to_list (specs db)).

(** Modelled from the spec: [newer x y] when [x] was updated no earlier
    than [y], the order of the missing [models.Spec] listing. *)
Definition newer (x y : TSub * TSpecId * TSpecVersion * SpecItem) : Prop :=
  item_updated_at y.2 ≤ item_updated_at x.2.

#[global] Instance newer_dec x y : Decision (newer x y).
Proof. unfold newer. apply _. Defined.

(** Modelled from the spec: the summary of a stored version, for the
    missing [models.Spec] listing. *)
Definition to_info (row : TSub * TSpecId * TSpecVersion * SpecItem) : TSpecInfo :=
  {| spec_id := row.1.1.2;
     spec_version := row.1.2;
     spec_title := item_title row.2;
     spec_description := item_description row.2;
     spec_model_count := item_model_count row.2;
     spec_updated_at := item_updated_at row.2 |}.

(** Modelled from the spec: [list_spec_versions] gives all versions,
    most-recent-first; [models.Spec.list_versions] is missing. *)
Definition list_versions (db : Tables) (sub : TSub) (id_ : TSpecId)
    : outcome TSpecInfoList :=
  if available db then inr (to_info <$> merge_sort newer (rows_of db sub id_))
  else inl unavailable.

(** Modelled from the spec: [get_latest_version] resolves to the version
    with the most recent update timestamp and fails with NotFound if no
    version exists; [models.Spec.get_latest_version] is missing. *)
Definition get_latest_version (db : Tables) (sub : TSub) (id_ : TSpecId)
    : outcome TSpecVersion :=
  spec_infos ← list_versions db sub id_;
  match spec_infos with
  | [] => inl (Raise NotFoundError ("could not find spec id " +:+ id_))
  | latest :: _ => inr (spec_version latest)
  end.

(** Modelled from the spec: [row] is the latest version of its spec id
    among [rows], for the missing [models.Spec] count. *)
Definition is_latest (rows : list (TSub * TSpecId * TSpecVersion * SpecItem))
    (row : TSub * TSpecId * TSpecVersion * SpecItem) : bool :=
  forallb (λ other,
    bool_decide (other.1.1 = row.1.1 → newer row other)) rows.

(** Modelled from the spec: [count_customer_models] is the sum of
    model_count across a customer's specs, the latest version of each
    spec id counting (the recommended policy), and 0 for a customer with
    no specs; [models.Spec.count_customer_models] is missing. *)
Definition count_customer_models (db : Tables) (sub : TSub) : outcome Z :=
  if available db then
    let rows := map_to_list (specs db) in
    inr (foldr Z.add 0
           (item_model_count ∘ snd
              <$> filter (λ row, row.1.1.1 = sub ∧ is_latest rows row) rows))
  else inl unavailable.

(** Modelled from the spec: [create_update_spec] is an upsert keyed by
    (customer, spec_id, version), stamped with the time of the write;
    [models.Spec.create_update_item] is missing. *)
Definition create_update_item (db : Tables) (sub : TSub) (id_ : TSpecId)
    (version : TSpecVersion) (model_count : TSpecModelCount)
    (title : TOptSpecTitle) (description : TOptSpecDescription)
    : option exception * Tables :=
  if available db then
    let created :=
      from_option item_created_at (clock db) (specs db !! (sub, id_, version)) in
    (None,
     {| specs := <[(sub, id_, version) :=
                   {| item_model_count := model_count;
                      item_title := title;
                      item_description := description;
                      item_created_at := created;
                      item_updated_at := clock db |}]> (specs db);
        credentials := credentials db;
        clock := clock db + 1;
        available := available db |})
  else (Some unavailable, db).

(** Modelled from the spec: credentials are identified by (customer,
    credential id); [models.Credentials.get_item] is missing.  Absence is
    the [None] of the [typing.Optional] in [Database.get_credentials]. *)
Definition get_item (db : Tables) (sub : TSub) (id_ : TCredentialsId)
    : outcome (option TCredentialsInfo) :=
  if available db then
    inr ((λ item, {| credentials_id := id_;
                     credentials_public_key := item_public_key item;
                     credentials_salt := item_salt item |})
           <$> credentials db !! (sub, id_))
  else inl unavailable.

(** Modelled from the spec: the public key is the lookup key for
    authentication and resolves to credential auth info or not found;
    [models.Credentials.get_user] is missing. *)
Definition get_user (db : Tables) (public_key : TCredentialsPublicKey)
    : outcome (option CredentialsAuthInfo) :=
  if available db then
    inr ((λ entry, {| auth_sub := entry.1.1;
                      auth_secret_key_hash := item_secret_key_hash entry.2;
                      auth_salt := item_salt entry.2 |})
           <$> head (filter (λ entry, item_public_key entry.2 = public_key)
                       (map_to_list (credentials db))))
  else inl unavailable.

#[global] Instance tables_models : Models Tables := {
  Spec_count_customer_models := count_customer_models;
  Spec_create_update_item := create_update_item;
  Spec_get_latest_version := get_latest_version;
  Spec_list_versions := list_versions;
  Credentials_get_item := get_item;
  Credentials_get_user := get_user;
}.

(** Modelled from the spec: the blob store, a mapping from (customer,
    spec id, version) to document bytes, and whether it can be reached;
    the storage facade is missing. *)
Record Blobs : Type := {
  objects : gmap (TSub * TSpecId * TSpecVersion) string;
  reachable : bool;
}.

(** Modelled from the spec: the fault of a blob store that cannot be
    reached. *)
Definition storage_fault : exception :=
  Raise StorageError "the storage is not available".

(** Modelled from the spec: the blob write is an upsert under (customer,
    spec id, version); the storage facade is missing. *)
Definition create_update_spec (s : Blobs) (user : TSub) (spec_id : TSpecId)
    (version : TSpecVersion) (spec_str : string) : option exception * Blobs :=
  if reachable s then
    (None, {| objects := <[(user, spec_id, version) := spec_str]> (objects s);
              reachable := reachable s |})
  else (Some storage_fault, s).

(** Modelled from the spec: listing the versions of a spec id with no
    stored version is a not-found; the storage facade is missing. *)
Definition get_spec_versions (s : Blobs) (user : TSub) (spec_id : TSpecId)
    : outcome (list TSpecVersion) :=
  if reachable s then
    match filter (λ entry, entry.1.1.1 = user ∧ entry.1.1.2 = spec_id)
            (map_to_list (objects s)) with
    | [] => inl (Raise ObjectNotFoundError spec_id)
    | entries => inr ((λ entry, entry.1.2) <$> entries)
    end
  else inl storage_fault.

#[global] Instance blobs_storage : Storage Blobs := {
  storage_create_update_spec := create_update_spec;
  storage_get_spec_versions := get_spec_versions;
}.

Definition empty_tables : Tables :=
  {| specs := ∅; credentials := ∅; clock := 0; available := true |}.

Definition empty_blobs : Blobs := {| objects := ∅; reachable := true |}.

Definition empty_world : World Blobs Tables :=
  {| storage := empty_blobs; database := empty_tables |}.
End memory.

(** ** Sample requests

    Concrete collaborators to run the endpoints on: a processor that
    rejects the text ["invalid"] and otherwise takes the text itself as
    the version, finds three models and canonicalises by wrapping the
    text in braces; a ceiling of five models. *)

Module sample.
Import types server spec.

Definition process (text language : string) : outcome SpecInfo :=
  if String.eqb text "invalid" then inl (Raise LoadSpecError "no schemas")
  else inr {| spec_str := "{" +:+ text +:+ "}";
              version := text;
              title := Some "title";
              description := None;
              model_count := 3 |}.

(** A stand-in for [json.dumps] on a list of versions. *)
Definition json_dumps (spec_versions : list TSpecVersion) : string :=
  "[" +:+ String.concat ", " ((λ v, "'" +:+ v +:+ "'") <$> spec_versions) +:+ "]".

Definition request : Request :=
  {| headers := λ key, if String.eqb key "X-LANGUAGE" then Some "JSON" else None |}.

Definition cfg : config.TConfig := {| config.free_tier_model_count := 5 |}.

(** A lowered ceiling. *)
Definition cfg_4 : config.TConfig := {| config.free_tier_model_count := 4 |}.

(** The bytes of ["1"], and a lone [0xff]. *)
Definition body_1 : list byte := [x31].
Definition body_ff : list byte := [xff].

Definition put :=
  versions.put (S := memory.Blobs) (D := memory.Tables) process cfg request.
Definition list_ :=
  versions.list_ (S := memory.Blobs) (D := memory.Tables) json_dumps.

(** The stores after a first accepted write. *)
Definition world_1 : World memory.Blobs memory.Tables :=
  (put body_1 "spec 1" "1" "user 1" memory.empty_world).1.2.

(** Tables that hold two versions of one spec, ["1"] written first. *)
Definition tables_2 : memory.Tables :=
  (memory.create_update_item
     (memory.create_update_item memory.empty_tables
        "user 1" "spec 1" "1" 3 None None).2
     "user 1" "spec 1" "2" 3 None None).2.

(** Empty stores of which the blob store cannot be reached. *)
Definition world_storage_down : World memory.Blobs memory.Tables :=
  {| storage := {| memory.objects := ∅; memory.reachable := false |};
     database := memory.empty_tables |}.
End sample.

(** ** The [get] endpoint *)

(** The read of one stored document on the storage facade, over a blob
    store state [S]. *)
Class StorageSpecs (S : Type) := {
  storage_get_spec :
    S → types.TSub → types.TSpecId → types.TSpecVersion → outcome string;
}.

Module reading.
Section reading.
Context {S : Type} `{!StorageSpecs S}.
(** [helpers.spec.prepare(spec_str=..., version=...)]. *)
Variable prepare : string → types.TSpecVersion → outcome string.
Import types server.

(** [try: body except C1: h1 except C2: h2 ...] around a body that only
    reads: the first clause whose class the exception is an instance of
    handles it. *)
Definition try_except {A : Type} (body : outcome A)
    (clauses : list (exception_class * (exception → outcome A))) : outcome A :=
  match body with
  | inr a => inr a
  | inl e =>
      match find (λ c, isinstance e c.1) clauses with
      | Some (_, handler) => handler e
      | None => inl e
      end
  end.

(** [get] only reads the blob store: it is a function of the store. *)
Definition get (spec_id : TSpecId) (version : TSpecVersion) (user : TSub)
    (s : S) : outcome Response :=
  try_except
    (spec_str ← storage_get_spec s user spec_id version;
     prepared_spec_str ← prepare spec_str version;
     mret {| response := Some prepared_spec_str;
             status := 200;
             mimetype := Some "text/plain" |})
    [ (ObjectNotFoundError, λ _,
        inr {| response := Some ("could not find the spec with id " +:+ spec_id);
               status := 404;
               mimetype := Some "text/plain" |});
      (StorageError, λ _,
        inr {| response := Some "something went wrong whilst reading the spec";
               status := 500;
               mimetype := Some "text/plain" |}) ].
End reading.
End reading.

(** ** More stores and requests to run the endpoints on *)

Module faults.
Import types.

(** Modelled from the spec: reading a version that is not stored is a
    not-found; the storage facade is missing. *)
Definition get_spec (s : memory.Blobs) (user : TSub) (spec_id : TSpecId)
    (version : TSpecVersion) : outcome string :=
  if memory.reachable s then
    match memory.objects s !! (user, spec_id, version) with
    | Some spec_str => inr spec_str
    | None => inl (Raise ObjectNotFoundError spec_id)
    end
  else inl memory.storage_fault.

#[global] Instance blobs_specs : StorageSpecs memory.Blobs := {
  storage_get_spec := get_spec;
}.

(** A stand-in for [helpers.spec.prepare]: it refuses the empty document
    and otherwise puts the version in front. *)
Definition prepare (spec_str : string) (version : TSpecVersion) : outcome string :=
  if String.eqb spec_str "" then inl (Raise KeyError "info")
  else inr ("version " +:+ version +:+ ": " +:+ spec_str).

(** Tables that answer every read and refuse every write. *)
Record Frozen : Type := { frozen : memory.Tables }.

#[global] Instance frozen_models : Models Frozen := {
  Spec_count_customer_models db := memory.count_customer_models (frozen db);
  Spec_create_update_item db _ _ _ _ _ _ := (Some memory.unavailable, db);
  Spec_get_latest_version db := memory.get_latest_version (frozen db);
  Spec_list_versions db := memory.list_versions (frozen db);
  Credentials_get_item db := memory.get_item (frozen db);
  Credentials_get_user db := memory.get_user (frozen db);
}.

(** Empty stores of which the tables refuse writes. *)
Definition world_frozen : World memory.Blobs Frozen :=
  {| storage := memory.empty_blobs;
     database := {| frozen := memory.empty_tables |} |}.

(** Empty stores of which the tables cannot be reached. *)
Definition tables_down : memory.Tables :=
  {| memory.specs := ∅; memory.credentials := ∅; memory.clock := 0;
     memory.available := false |}.

Definition world_database_down : World memory.Blobs memory.Tables :=
  {| storage := memory.empty_blobs; database := tables_down |}.

(** A request without the language header. *)
Definition request_no_language : server.Request :=
  {| server.headers := λ _, None |}.

(** [put] on the frozen tables, and without the language header. *)
Definition put_frozen :=
  versions.put (S := memory.Blobs) (D := Frozen)
    sample.process sample.cfg sample.request.

Definition put_no_language :=
  versions.put (S := memory.Blobs) (D := memory.Tables)
    sample.process sample.cfg request_no_language.

Definition get :=
  reading.get (S := memory.Blobs) prepare.

(** A blob store that holds two versions of one spec, the second of
    them the empty document. *)
Definition blobs_2 : memory.Blobs :=
  (memory.create_update_spec
     (memory.create_update_spec memory.empty_blobs
        "user 1" "spec 1" "1" "{1}").2
     "user 1" "spec 1" "2" "").2.
End faults.

(** The characters of a printed integer. *)
Definition numeric_char (c : Ascii.ascii) : bool :=
  bool_decide (c ∈ String.list_ascii_of_string "-0123456789").

Fixpoint numeric (s : string) : bool :=
  match s with
  | EmptyString => true
  | String c s' => numeric_char c && numeric s'
  end.

(** What a facade call of [put] for [user] and [spec_id] looks like. *)
Definition put_call (user : types.TSub) (spec_id : types.TSpecId) (ev : event)
    : Prop :=
  match ev with
  | CheckWouldExceedFreeTier sub _ => sub = user
  | GetSpecVersions _ _ => False
  | StorageCreateUpdateSpec user' spec_id' _ _ _ =>
      user' = user ∧ spec_id' = spec_id
  | DatabaseCreateUpdateSpec sub spec_id' _ _ _ _ _ =>
      sub = user ∧ spec_id' = spec_id
  end.

(** ** Collaborators that behave otherwise *)

Module relisting.
Import types.

(** A storage facade that serves the version listing from the database:
    what [list_] sees when the listing it reads comes from
    [Database.list_spec_versions]. *)
Record Listing : Type := { listing : memory.Tables }.

#[global] Instance listing_storage : Storage Listing := {
  storage_create_update_spec s _ _ _ _ := (None, s);
  storage_get_spec_versions s user spec_id :=
    spec_infos ← Database.list_spec_versions (listing s) user spec_id;
    mret (spec_version <$> spec_infos);
}.

(** Tables that list the versions of a spec oldest first. *)
Record OldestFirst : Type := { tables : memory.Tables }.

#[global] Instance oldest_first_models : Models OldestFirst := {
  Spec_count_customer_models db := memory.count_customer_models (tables db);
  Spec_create_update_item db sub id_ version model_count title description :=
    match memory.create_update_item (tables db) sub id_ version model_count
            title description with
    | (raised, db') => (raised, {| tables := db' |})
    end;
  Spec_get_latest_version db := memory.get_latest_version (tables db);
  Spec_list_versions db sub id_ :=
    spec_infos ← memory.list_versions (tables db) sub id_;
    mret (reverse spec_infos);
  Credentials_get_item db := memory.get_item (tables db);
  Credentials_get_user db := memory.get_user (tables db);
}.



End relisting.

(** ** Vocabulary of the statements *)

(** [part] occurs in [text]. *)
Definition embeds (part text : string) : Prop :=
  ∃ before after, text = before +:+ part +:+ after.


(** * Properties *)

(** ** The run of [put], stage by stage *)

Section put_stages.
Context {S D : Type} `{!Storage S, !Models D}.
Variable process : string → string → outcome spec.SpecInfo.
Variables (cfg : config.TConfig) (request : server.Request).

Local Abbreviation put_ := (versions.put (S := S) (D := D) process cfg request).

(** What the three [except] clauses of [put] make of an exception
    raised inside the [try]. *)
Local Abbreviation handled e :=
  (if isinstance e LoadSpecError then
     inr {| server.response := Some ("the spec is not valid, " +:+ exc_str e);
            server.status := 400;
            server.mimetype := Some "text/plain" |}
   else if isinstance e StorageError then
     inr {| server.response := Some "something went wrong whilst storing the spec";
            server.status := 500;
            server.mimetype := Some "text/plain" |}
   else if isinstance e DatabaseError then
     inr {| server.response :=
              Some "something went wrong whilst updating the database";
            server.status := 500;
            server.mimetype := Some "text/plain" |}
   else inl e : outcome server.Response).

Ltac enter_put Hh :=
  unfold versions.put, versions.header, mbind, versions.M_bind,
    versions.try_except, versions.lift;
  rewrite Hh; cbn.

Ltac by_class e :=
  destruct e as [[] ?]; reflexivity.

(** Without the language header the lookup raises before the [try]. *)
Lemma put_no_header body spec_id version user (w : World S D) :
  server.headers request "X-LANGUAGE" = None →
  put_ body spec_id version user w = (inl (Raise KeyError "X-LANGUAGE"), w, []).
Proof. intros Hh. enter_put Hh. reflexivity. Qed.

(** A body that does not decode: the exception leaves [put]. *)
Lemma put_decode_raises body spec_id version user (w : World S D) language e :
  server.headers request "X-LANGUAGE" = Some language →
  decode body = inl e →
  put_ body spec_id version user w = (inl e, w, []).
Proof.
  intros Hh Hd. enter_put Hh. rewrite Hd. cbn.
  unfold decode in Hd. destruct (utf8_valid _); [discriminate|].
  injection Hd as <-. reflexivity.
Qed.

(** The processor raises: nothing was called on either facade. *)
Lemma put_process_raises body spec_id version user (w : World S D)
    language text e :
  server.headers request "X-LANGUAGE" = Some language →
  decode body = inr text →
  process text language = inl e →
  put_ body spec_id version user w = (handled e, w, []).
Proof.
  intros Hh Hd Hp. enter_put Hh. rewrite Hd. cbn. rewrite Hp. cbn.
  by_class e.
Qed.

Lemma put_mismatch body spec_id version user (w : World S D)
    language text spec_info :
  server.headers request "X-LANGUAGE" = Some language →
  decode body = inr text →
  process text language = inr spec_info →
  version ≠ spec.version spec_info →
  put_ body spec_id version user w =
    (inr (versions.version_mismatch version (spec.version spec_info)), w, []).
Proof.
  intros Hh Hd Hp Hv. enter_put Hh. rewrite Hd. cbn. rewrite Hp. cbn.
  destruct (String.eqb_spec version (spec.version spec_info)); [done|].
  reflexivity.
Qed.

(** The free tier check raises: one read, no write. *)
Lemma put_check_raises body spec_id version user (w : World S D)
    language text spec_info e :
  server.headers request "X-LANGUAGE" = Some language →
  decode body = inr text →
  process text language = inr spec_info →
  version = spec.version spec_info →
  Database.check_would_exceed_free_tier cfg (database w) user
    (spec.model_count spec_info) = inl e →
  put_ body spec_id version user w =
    (handled e, w,
     [CheckWouldExceedFreeTier user (spec.model_count spec_info)]).
Proof.
  intros Hh Hd Hp Hv Hc. enter_put Hh. rewrite Hd. cbn. rewrite Hp. cbn.
  rewrite Hv, String.eqb_refl. cbn.
  unfold versions.check_would_exceed_free_tier. rewrite Hc. cbn.
  by_class e.
Qed.

Lemma put_exceeded body spec_id version user (w : World S D)
    language text spec_info decision :
  server.headers request "X-LANGUAGE" = Some language →
  decode body = inr text →
  process text language = inr spec_info →
  version = spec.version spec_info →
  Database.check_would_exceed_free_tier cfg (database w) user
    (spec.model_count spec_info) = inr decision →
  types.result decision = true →
  put_ body spec_id version user w =
    (inr {| server.response := types.reason decision;
            server.status := 402;
            server.mimetype := Some "text/plain" |}, w,
     [CheckWouldExceedFreeTier user (spec.model_count spec_info)]).
Proof.
  intros Hh Hd Hp Hv Hc Hr. enter_put Hh. rewrite Hd. cbn. rewrite Hp. cbn.
  rewrite Hv, String.eqb_refl. cbn.
  unfold versions.check_would_exceed_free_tier. rewrite Hc. cbn.
  rewrite Hr. reflexivity.
Qed.

(** The blob write raises: the metadata store is as it was. *)
Lemma put_storage_raises body spec_id version user (w : World S D)
    language text spec_info decision e s' :
  server.headers request "X-LANGUAGE" = Some language →
  decode body = inr text →
  process text language = inr spec_info →
  version = spec.version spec_info →
  Database.check_would_exceed_free_tier cfg (database w) user
    (spec.model_count spec_info) = inr decision →
  types.result decision = false →
  storage_create_update_spec (storage w) user spec_id
    (spec.version spec_info) (spec.spec_str spec_info) = (Some e, s') →
  put_ body spec_id version user w =
    (handled e, {| storage := s'; database := database w |},
     [CheckWouldExceedFreeTier user (spec.model_count spec_info);
      StorageCreateUpdateSpec user spec_id (spec.version spec_info)
        (spec.spec_str spec_info) (Some e)]).
Proof.
  intros Hh Hd Hp Hv Hc Hr Hs. enter_put Hh. rewrite Hd. cbn. rewrite Hp. cbn.
  rewrite Hv, String.eqb_refl. cbn.
  unfold versions.check_would_exceed_free_tier. rewrite Hc. cbn.
  rewrite Hr. unfold versions.storage_create_update. cbn. rewrite Hs. cbn.
  by_class e.
Qed.

(** The metadata write raises: the blob is already written. *)
Lemma put_database_raises body spec_id version user (w : World S D)
    language text spec_info decision e s' d' :
  server.headers request "X-LANGUAGE" = Some language →
  decode body = inr text →
  process text language = inr spec_info →
  version = spec.version spec_info →
  Database.check_would_exceed_free_tier cfg (database w) user
    (spec.model_count spec_info) = inr decision →
  types.result decision = false →
  storage_create_update_spec (storage w) user spec_id
    (spec.version spec_info) (spec.spec_str spec_info) = (None, s') →
  Database.create_update_spec (database w) user spec_id
    (spec.version spec_info) (spec.model_count spec_info)
    (spec.title spec_info) (spec.description spec_info) = (Some e, d') →
  put_ body spec_id version user w =
    (handled e, {| storage := s'; database := d' |},
     [CheckWouldExceedFreeTier user (spec.model_count spec_info);
      StorageCreateUpdateSpec user spec_id (spec.version spec_info)
        (spec.spec_str spec_info) None;
      DatabaseCreateUpdateSpec user spec_id (spec.version spec_info)
        (spec.title spec_info) (spec.description spec_info)
        (spec.model_count spec_info) (Some e)]).
Proof.
  intros Hh Hd Hp Hv Hc Hr Hs Hw. enter_put Hh. rewrite Hd. cbn. rewrite Hp. cbn.
  rewrite Hv, String.eqb_refl. cbn.
  unfold versions.check_would_exceed_free_tier. rewrite Hc. cbn.
  rewrite Hr. unfold versions.storage_create_update. cbn. rewrite Hs. cbn.
  unfold versions.database_create_update. cbn. rewrite Hw. cbn.
  by_class e.
Qed.

Lemma put_success body spec_id version user (w : World S D)
    language text spec_info decision s' d' :
  server.headers request "X-LANGUAGE" = Some language →
  decode body = inr text →
  process text language = inr spec_info →
  version = spec.version spec_info →
  Database.check_would_exceed_free_tier cfg (database w) user
    (spec.model_count spec_info) = inr decision →
  types.result decision = false →
  storage_create_update_spec (storage w) user spec_id
    (spec.version spec_info) (spec.spec_str spec_info) = (None, s') →
  Database.create_update_spec (database w) user spec_id
    (spec.version spec_info) (spec.model_count spec_info)
    (spec.title spec_info) (spec.description spec_info) = (None, d') →
  put_ body spec_id version user w =
    (inr {| server.response := None; server.status := 204;
            server.mimetype := None |},
     {| storage := s'; database := d' |},
     [CheckWouldExceedFreeTier user (spec.model_count spec_info);
      StorageCreateUpdateSpec user spec_id (spec.version spec_info)
        (spec.spec_str spec_info) None;
      DatabaseCreateUpdateSpec user spec_id (spec.version spec_info)
        (spec.title spec_info) (spec.description spec_info)
        (spec.model_count spec_info) None]).
Proof.
  intros Hh Hd Hp Hv Hc Hr Hs Hw. enter_put Hh. rewrite Hd. cbn. rewrite Hp. cbn.
  rewrite Hv, String.eqb_refl. cbn.
  unfold versions.check_would_exceed_free_tier. rewrite Hc. cbn.
  rewrite Hr. unfold versions.storage_create_update. cbn. rewrite Hs. cbn.
  unfold versions.database_create_update. cbn. rewrite Hw. cbn.
  reflexivity.
Qed.
End put_stages.

(** ** The free tier check *)

Section free_tier.
Context {D : Type} `{!Models D}.
Implicit Types (cfg : config.TConfig) (db : D) (sub : string).

(** The check returns whenever the count does, and what it returns is
    fixed by the count, the proposed count and the ceiling. *)
Lemma check_would_exceed_free_tier_run cfg db sub model_count current_count :
  Database.count_customer_models db sub = inr current_count →
  Database.check_would_exceed_free_tier cfg db sub model_count =
    inr (if current_count + model_count >? config.free_tier_model_count cfg
         then {| types.result := true;
                 types.reason :=
                   Some (Database.exceeded_reason
                           (config.free_tier_model_count cfg)
                           current_count model_count) |}
         else {| types.result := false; types.reason := None |}).
Proof.
  intros Hcount. unfold Database.check_would_exceed_free_tier.
  rewrite Hcount. cbn. by destruct (_ >? _).
Qed.

(** A decision was returned only if the count was. *)
Lemma check_would_exceed_free_tier_counted cfg db sub model_count decision :
  Database.check_would_exceed_free_tier cfg db sub model_count = inr decision →
  ∃ current_count, Database.count_customer_models db sub = inr current_count.
Proof.
  unfold Database.check_would_exceed_free_tier.
  destruct (Database.count_customer_models db sub) as [e|n]; [discriminate|].
  eauto.
Qed.

Lemma append_assoc (s1 s2 s3 : string) : (s1 +:+ s2) +:+ s3 = s1 +:+ (s2 +:+ s3).
Proof.
  induction s1 as [|c s1 IH]; [done|].
  change (String c ((s1 +:+ s2) +:+ s3) = String c (s1 +:+ s2 +:+ s3)).
  by rewrite IH.
Qed.

Lemma append_empty_r (s : string) : s +:+ "" = s.
Proof.
  induction s as [|c s IH]; [done|].
  change (String c (s +:+ "") = String c s). by rewrite IH.
Qed.

Lemma embeds_here part before after : embeds part (before +:+ part +:+ after).
Proof. by exists before, after. Qed.

Lemma embeds_later part prefix text : embeds part text → embeds part (prefix +:+ text).
Proof.
  intros (before & after & ->). exists (prefix +:+ before), after.
  by rewrite append_assoc.
Qed.

Lemma embeds_end part : embeds part part.
Proof.
  exists "", "". cbn. by rewrite append_empty_r.
Qed.

(** The three numbers of the reason text. *)
Lemma exceeded_reason_embeds ceiling current_count model_count :
  embeds (pretty ceiling)
    (Database.exceeded_reason ceiling current_count model_count)
  ∧ embeds (pretty current_count)
      (Database.exceeded_reason ceiling current_count model_count)
  ∧ embeds (pretty model_count)
      (Database.exceeded_reason ceiling current_count model_count).
Proof.
  unfold Database.exceeded_reason. repeat split.
  - apply embeds_here.
  - do 3 apply embeds_later. apply embeds_here.
  - do 6 apply embeds_later. apply embeds_end.
Qed.

(** C2.  The free tier check reports that the free tier would be
    exceeded if and only if the stored model count plus the proposed
    model count is strictly greater than the configured ceiling; a total
    that is exactly the ceiling is allowed. *)
Theorem check_would_exceed_free_tier_iff cfg db sub model_count current_count :
  Database.count_customer_models db sub = inr current_count →
  ∃ decision,
    Database.check_would_exceed_free_tier cfg db sub model_count = inr decision
    ∧ (types.result decision = true
       ↔ current_count + model_count > config.free_tier_model_count cfg)
    ∧ (current_count + model_count = config.free_tier_model_count cfg →
       types.result decision = false).
Proof.
  intros Hcount. eexists. split.
  - by apply check_would_exceed_free_tier_run.
  - destruct (Z.gtb_spec (current_count + model_count)
                (config.free_tier_model_count cfg)); cbn; split; try lia;
      intuition (congruence || lia).
Qed.

(** C4, as the code has it.  A decision that reports the free tier
    exceeded carries a reason text that embeds the configured ceiling, the
    current model count and the proposed model count, in that wording; a
    decision that does not report it carries no reason.  Either way the
    decision is the one computed from the count stored at the time of the
    call. *)
Theorem check_would_exceed_free_tier_reason cfg db sub model_count decision :
  Database.check_would_exceed_free_tier cfg db sub model_count = inr decision →
  ∃ current_count,
    Database.count_customer_models db sub = inr current_count
    ∧ types.result decision
      = (current_count + model_count >? config.free_tier_model_count cfg)
    ∧ if types.result decision then
        ∃ text,
          types.reason decision = Some text
          ∧ text = "with this spec the maximum number of "
                   +:+ pretty (config.free_tier_model_count cfg)
                   +:+ " models for the free tier would be exceeded, "
                   +:+ "current models count: " +:+ pretty current_count
                   +:+ ", models in this spec: " +:+ pretty model_count
          ∧ embeds (pretty (config.free_tier_model_count cfg)) text
          ∧ embeds (pretty current_count) text
          ∧ embeds (pretty model_count) text
      else types.reason decision = None.
Proof.
  intros Hcheck.
  destruct (check_would_exceed_free_tier_counted _ _ _ _ _ Hcheck)
    as [current_count Hcount].
  exists current_count. split; [done|].
  rewrite (check_would_exceed_free_tier_run cfg _ _ model_count _ Hcount) in Hcheck.
  injection Hcheck as <-.
  destruct (_ >? _); cbn; [|done]. split; [done|].
  eexists. split; [done|]. split.
  - unfold Database.exceeded_reason. cbn.
    reflexivity.
  - apply exceeded_reason_embeds.
Qed.

(** C6.  Quota monotonicity: with the count and the ceiling fixed, a
    rejected proposed count stays rejected when it grows; with the count
    and the proposed count fixed, a rejection stays a rejection when the
    ceiling is lowered, so lowering the ceiling never turns a rejection
    into an acceptance. *)
Theorem check_would_exceed_free_tier_monotone
    cfg cfg' db sub model_count model_count' decision :
  Database.check_would_exceed_free_tier cfg db sub model_count = inr decision →
  types.result decision = true →
  model_count ≤ model_count' →
  config.free_tier_model_count cfg' ≤ config.free_tier_model_count cfg →
  (∃ larger,
     Database.check_would_exceed_free_tier cfg db sub model_count' = inr larger
     ∧ types.result larger = true)
  ∧ (∃ lowered,
       Database.check_would_exceed_free_tier cfg' db sub model_count = inr lowered
       ∧ types.result lowered = true).
Proof.
  intros Hcheck Hres Hle Hceil.
  destruct (check_would_exceed_free_tier_counted _ _ _ _ _ Hcheck)
    as [current_count Hcount].
  rewrite (check_would_exceed_free_tier_run cfg _ _ model_count _ Hcount) in Hcheck.
  injection Hcheck as <-.
  destruct (Z.gtb_spec (current_count + model_count)
              (config.free_tier_model_count cfg)) as [Hgt|]; [|discriminate].
  rewrite !(check_would_exceed_free_tier_run _ _ _ _ _ Hcount).
  split.
  - eexists. split; [done|].
    destruct (Z.gtb_spec (current_count + model_count')
                (config.free_tier_model_count cfg)); [done|lia].
  - eexists. split; [done|].
    destruct (Z.gtb_spec (current_count + model_count)
                (config.free_tier_model_count cfg')); [done|lia].
Qed.
End free_tier.

(** ** The write workflow *)

Section write_workflow.
Context {S D : Type} `{!Storage S, !Models D}.
Variable process : string → string → outcome spec.SpecInfo.
Variables (cfg : config.TConfig) (request : server.Request).

Local Abbreviation put_ := (versions.put (S := S) (D := D) process cfg request).

(** Every run of [put] ends at one of its nine exits: the hypothesis is
    rewritten with the stage lemma of each. *)
Ltac put_inversion H body spec_id version user w :=
  let language := fresh "language" in
  let text := fresh "text" in
  let spec_info := fresh "spec_info" in
  let decision := fresh "decision" in
  let e := fresh "e" in
  let s' := fresh "s'" in
  let d' := fresh "d'" in
  let Hh := fresh "Hheader" in
  let Hd := fresh "Hdecode" in
  let Hp := fresh "Hprocess" in
  let Hv := fresh "Hversion" in
  let Hc := fresh "Hcheck" in
  let Hr := fresh "Hresult" in
  let Hs := fresh "Hstorage" in
  let Hw := fresh "Hdatabase" in
  destruct (server.headers request "X-LANGUAGE") as [language|] eqn:Hh;
  [ destruct (decode body) as [e|text] eqn:Hd;
    [ rewrite (put_decode_raises process cfg request _ spec_id version user w
                 _ _ Hh Hd) in H
    | destruct (process text language) as [e|spec_info] eqn:Hp;
      [ rewrite (put_process_raises process cfg request _ spec_id version user w
                   _ _ _ Hh Hd Hp) in H
      | destruct (decide (version = spec.version spec_info)) as [Hv|Hv];
        [ destruct (Database.check_would_exceed_free_tier cfg (database w) user
                      (spec.model_count spec_info)) as [e|decision] eqn:Hc;
          [ rewrite (put_check_raises process cfg request _ spec_id version user w
                       _ _ _ _ Hh Hd Hp Hv Hc) in H
          | destruct (types.result decision) eqn:Hr;
            [ rewrite (put_exceeded process cfg request _ spec_id version user w
                         _ _ _ _ Hh Hd Hp Hv Hc Hr) in H
            | destruct (storage_create_update_spec (storage w) user spec_id
                          (spec.version spec_info) (spec.spec_str spec_info))
                as [[e|] s'] eqn:Hs;
              [ rewrite (put_storage_raises process cfg request _ spec_id version
                           user w _ _ _ _ _ _ Hh Hd Hp Hv Hc Hr Hs) in H
              | destruct (Database.create_update_spec (database w) user spec_id
                            (spec.version spec_info) (spec.model_count spec_info)
                            (spec.title spec_info) (spec.description spec_info))
                  as [[e|] d'] eqn:Hw;
                [ rewrite (put_database_raises process cfg request _ spec_id
                             version user w _ _ _ _ _ _ _ Hh Hd Hp Hv Hc Hr Hs Hw)
                    in H
                | rewrite (put_success process cfg request _ spec_id version
                             user w _ _ _ _ _ _ Hh Hd Hp Hv Hc Hr Hs Hw) in H ] ] ] ]
        | rewrite (put_mismatch process cfg request _ spec_id version user w
                     _ _ _ Hh Hd Hp Hv) in H ] ] ]
  | rewrite (put_no_header process cfg request body spec_id version user w Hh)
      in H ].

Ltac members :=
  repeat match goal with
    | H : _ ∈ [] |- _ => by apply elem_of_nil in H
    | H : _ ∈ _ :: _ |- _ => apply elem_of_cons in H as [H|H]; [simplify_eq|]
    end.

(** What an [except] clause returns is a 400 or a 500. *)
Lemma handled_status (e : exception) (resp : server.Response) :
  (if isinstance e LoadSpecError then
     inr {| server.response := Some ("the spec is not valid, " +:+ exc_str e);
            server.status := 400;
            server.mimetype := Some "text/plain" |}
   else if isinstance e StorageError then
     inr {| server.response := Some "something went wrong whilst storing the spec";
            server.status := 500;
            server.mimetype := Some "text/plain" |}
   else if isinstance e DatabaseError then
     inr {| server.response :=
              Some "something went wrong whilst updating the database";
            server.status := 500;
            server.mimetype := Some "text/plain" |}
   else inl e : outcome server.Response) = inr resp →
  server.status resp = 400 ∨ server.status resp = 500.
Proof. destruct e as [[] ?]; cbn; intros [= <-]; cbn; auto. Qed.

(** C1.  A put whose declared version differs from the version the spec
    processor derived ends with the 400 response that names both
    versions; it leaves both stores as they were and calls neither
    facade. *)
Theorem put_version_mismatch body spec_id version user (w : World S D)
    language text spec_info :
  server.headers request "X-LANGUAGE" = Some language →
  decode body = inr text →
  process text language = inr spec_info →
  version ≠ spec.version spec_info →
  put_ body spec_id version user w =
    (inr {| server.response :=
              Some ("the requested version " +:+ version
                    +:+ " does not match the version of the spec "
                    +:+ spec.version spec_info);
            server.status := 400;
            server.mimetype := Some "text/plain" |},
     w, []).
Proof.
  intros Hh Hd Hp Hv.
  rewrite (put_mismatch process cfg request _ _ _ _ _ _ _ _ Hh Hd Hp Hv).
  reflexivity.
Qed.
(** A 402 is returned only from the free tier branch. *)
Lemma put_402_only_if_exceeded body spec_id version user (w w' : World S D)
    resp t :
  put_ body spec_id version user w = (inr resp, w', t) →
  server.status resp = 402 →
  ∃ language text spec_info decision,
    server.headers request "X-LANGUAGE" = Some language
    ∧ decode body = inr text
    ∧ process text language = inr spec_info
    ∧ version = spec.version spec_info
    ∧ Database.check_would_exceed_free_tier cfg (database w) user
        (spec.model_count spec_info) = inr decision
    ∧ types.result decision = true.
Proof.
  intros Hput Hstatus.
  put_inversion Hput body spec_id version user w;
    injection Hput as Hresp <- <-;
    try discriminate;
    try (apply handled_status in Hresp as [Hresp|Hresp];
         rewrite Hresp in Hstatus; discriminate);
    try (subst resp; cbn in Hstatus; discriminate).
  eauto 10.
Qed.

(** C5.  A put for which the free tier check reports that the free tier
    would be exceeded ends with status 402 and the reason of the decision
    as body; the stores are as they were and the only facade call is the
    check itself, a read.  No other exit of [put] answers 402. *)
Theorem put_quota_exceeded body spec_id version user (w : World S D)
    language text spec_info decision :
  server.headers request "X-LANGUAGE" = Some language →
  decode body = inr text →
  process text language = inr spec_info →
  version = spec.version spec_info →
  Database.check_would_exceed_free_tier cfg (database w) user
    (spec.model_count spec_info) = inr decision →
  types.result decision = true →
  (∃ reason,
     types.reason decision = Some reason
     ∧ put_ body spec_id version user w =
         (inr {| server.response := Some reason;
                 server.status := 402;
                 server.mimetype := Some "text/plain" |},
          w, [CheckWouldExceedFreeTier user (spec.model_count spec_info)]))
  ∧ (∀ body' spec_id' version' user' (w0 w1 : World S D) resp t,
       put_ body' spec_id' version' user' w0 = (inr resp, w1, t) →
       server.status resp = 402 →
       ∃ language' text' spec_info' decision',
         server.headers request "X-LANGUAGE" = Some language'
         ∧ decode body' = inr text'
         ∧ process text' language' = inr spec_info'
         ∧ version' = spec.version spec_info'
         ∧ Database.check_would_exceed_free_tier cfg (database w0) user'
             (spec.model_count spec_info') = inr decision'
         ∧ types.result decision' = true).
Proof.
  intros Hh Hd Hp Hv Hc Hr. split.
  - rewrite (put_exceeded process cfg request _ _ _ _ _ _ _ _ _ Hh Hd Hp Hv Hc Hr).
    destruct (check_would_exceed_free_tier_counted _ _ _ _ _ Hc)
      as [current_count Hcount].
    rewrite (check_would_exceed_free_tier_run cfg _ _ _ _ Hcount) in Hc.
    injection Hc as <-.
    destruct (_ >? _); cbn in *; [eauto|discriminate].
  - intros. by eapply put_402_only_if_exceeded.
Qed.

(** The calls of a run, and the stores it leaves: nothing; the check
    alone; the check and a blob write that raised; or the check, a blob
    write that raised nothing and the metadata write. *)
Lemma put_trace_shape body spec_id version user (w w' : World S D) r t :
  put_ body spec_id version user w = (r, w', t) →
  (t = [] ∧ w' = w)
  ∨ ∃ language text spec_info,
      server.headers request "X-LANGUAGE" = Some language
      ∧ decode body = inr text
      ∧ process text language = inr spec_info
      ∧ version = spec.version spec_info
      ∧ ((t = [CheckWouldExceedFreeTier user (spec.model_count spec_info)]
          ∧ w' = w)
         ∨ ∃ decision,
             Database.check_would_exceed_free_tier cfg (database w) user
               (spec.model_count spec_info) = inr decision
             ∧ types.result decision = false
             ∧ ((∃ e s',
                   t = [CheckWouldExceedFreeTier user (spec.model_count spec_info);
                        StorageCreateUpdateSpec user spec_id
                          (spec.version spec_info) (spec.spec_str spec_info)
                          (Some e)]
                   ∧ w' = {| storage := s'; database := database w |})
                ∨ (∃ raised s' d',
                     t = [CheckWouldExceedFreeTier user
                            (spec.model_count spec_info);
                          StorageCreateUpdateSpec user spec_id
                            (spec.version spec_info) (spec.spec_str spec_info)
                            None;
                          DatabaseCreateUpdateSpec user spec_id
                            (spec.version spec_info) (spec.title spec_info)
                            (spec.description spec_info)
                            (spec.model_count spec_info) raised]
                     ∧ w' = {| storage := s'; database := d' |}))).
Proof.
  intros Hput.
  put_inversion Hput body spec_id version user w;
    injection Hput as <- <- <-.
  - by left.
  - by left.
  - right. exists language, text, spec_info. repeat (split; [done|]). by left.
  - right. exists language, text, spec_info. repeat (split; [done|]). by left.
  - right. exists language, text, spec_info. repeat (split; [done|]).
    right. exists decision. repeat (split; [done|]). left. by exists e, s'.
  - right. exists language, text, spec_info. repeat (split; [done|]).
    right. exists decision. repeat (split; [done|]).
    right. by exists (Some e), s', d'.
  - right. exists language, text, spec_info. repeat (split; [done|]).
    right. exists decision. repeat (split; [done|]).
    right. by exists None, s', d'.
  - by left.
  - by left.
Qed.

(** C3.  In every run of [put] the facade calls come in one order and
    none comes early: a store is written only after the body was
    processed, the declared version matched the derived one and the free
    tier check allowed the write; the check is called before every write;
    the metadata write is preceded by a blob write that raised nothing; a
    blob write that raises leaves the metadata store as it was; and a
    store changes only through a recorded write. *)
Theorem put_store_order body spec_id version user (w w' : World S D) r t :
  put_ body spec_id version user w = (r, w', t) →
  (∀ ev, ev ∈ t → is_write ev = true →
     ∃ language text spec_info decision,
       server.headers request "X-LANGUAGE" = Some language
       ∧ decode body = inr text
       ∧ process text language = inr spec_info
       ∧ version = spec.version spec_info
       ∧ Database.check_would_exceed_free_tier cfg (database w) user
           (spec.model_count spec_info) = inr decision
       ∧ types.result decision = false)
  ∧ (∀ before ev after, t = before ++ ev :: after → is_write ev = true →
       ∃ sub model_count, CheckWouldExceedFreeTier sub model_count ∈ before)
  ∧ (∀ before ev after, t = before ++ ev :: after → is_database_write ev = true →
       ∃ spec_str derived,
         StorageCreateUpdateSpec user spec_id derived spec_str None ∈ before)
  ∧ (∀ user' spec_id' derived spec_str e,
       StorageCreateUpdateSpec user' spec_id' derived spec_str (Some e) ∈ t →
       database w' = database w
       ∧ ∀ ev, ev ∈ t → is_database_write ev = false)
  ∧ ((∀ ev, ev ∈ t → is_storage_write ev = false) → storage w' = storage w)
  ∧ ((∀ ev, ev ∈ t → is_database_write ev = false) → database w' = database w).
Proof.
  intros Hput.
  destruct (put_trace_shape _ _ _ _ _ _ _ _ Hput)
    as [[-> ->]|(language & text & spec_info & Hh & Hd & Hp & Hv
        & [[-> ->]|(decision & Hc & Hr
           & [(e & s' & -> & ->)|(raised & s' & d' & -> & ->)])])].
  - (* no call *)
    refine (conj _ (conj _ (conj _ (conj _ (conj _ _))))); try done.
    + intros ev Hin. members.
    + intros [|? before] ev after Heq; discriminate.
    + intros [|? before] ev after Heq; discriminate.
    + intros ????? Hin. members.
  - (* the check alone *)
    refine (conj _ (conj _ (conj _ (conj _ (conj _ _))))); try done.
    + intros ev Hin Hwrite. members; try discriminate.
    + intros [|? [|? before]] ev after Heq Hwrite; simplify_eq/=.
    + intros [|? [|? before]] ev after Heq Hwrite; simplify_eq/=.
    + intros ????? Hin. members; try discriminate.
  - (* the blob write raised *)
    refine (conj _ (conj _ (conj _ (conj _ (conj _ _))))); try done.
    + intros ev Hin Hwrite. eauto 10.
    + intros [|? [|? [|? before]]] ev after Heq Hwrite; simplify_eq/=.
      eexists _, _. apply list_elem_of_here.
    + intros [|? [|? [|? before]]] ev after Heq Hwrite; simplify_eq/=.
    + intros ????? Hin. split; [done|]. intros ev Hev. clear Hin. members; done.
    + intros Hnone.
      by specialize (Hnone _ (list_elem_of_further _ _ _ (list_elem_of_here _ _))).
  - (* the metadata write was reached *)
    refine (conj _ (conj _ (conj _ (conj _ (conj _ _))))).
    + intros ev Hin Hwrite. eauto 10.
    + intros [|? [|? [|? [|? before]]]] ev after Heq Hwrite; simplify_eq/=;
        eexists _, _; apply list_elem_of_here.
    + intros [|? [|? [|? [|? before]]]] ev after Heq Hwrite; simplify_eq/=.
      eexists _, _. apply list_elem_of_further, list_elem_of_here.
    + intros ????? Hin. members; try discriminate.
    + intros Hnone.
      by specialize (Hnone _ (list_elem_of_further _ _ _ (list_elem_of_here _ _))).
    + intros Hnone.
      by specialize (Hnone _ (list_elem_of_further _ _ _
                                (list_elem_of_further _ _ _
                                   (list_elem_of_here _ _)))).
Qed.
(** C8.  A put that succeeds wrote to the blob store the document the
    spec processor returned, not the request body, and made the blob
    write and the metadata write under the same customer, spec id and
    derived version. *)
Theorem put_success_writes body spec_id version user (w w' : World S D) resp t :
  put_ body spec_id version user w = (inr resp, w', t) →
  server.status resp = 204 →
  ∃ language text spec_info,
    server.headers request "X-LANGUAGE" = Some language
    ∧ decode body = inr text
    ∧ process text language = inr spec_info
    ∧ t = [CheckWouldExceedFreeTier user (spec.model_count spec_info);
           StorageCreateUpdateSpec user spec_id (spec.version spec_info)
             (spec.spec_str spec_info) None;
           DatabaseCreateUpdateSpec user spec_id (spec.version spec_info)
             (spec.title spec_info) (spec.description spec_info)
             (spec.model_count spec_info) None]
    ∧ storage_create_update_spec (storage w) user spec_id
        (spec.version spec_info) (spec.spec_str spec_info) = (None, storage w')
    ∧ Database.create_update_spec (database w) user spec_id
        (spec.version spec_info) (spec.model_count spec_info)
        (spec.title spec_info) (spec.description spec_info)
      = (None, database w').
Proof.
  intros Hput Hstatus.
  put_inversion Hput body spec_id version user w;
    injection Hput as Hresp <- <-;
    try discriminate;
    try (apply handled_status in Hresp as [Hresp|Hresp];
         rewrite Hresp in Hstatus; discriminate);
    try (subst resp; cbn in Hstatus; discriminate).
  exists language, text, spec_info. by repeat split.
Qed.

(** C9.  [put] decodes the body and runs the spec processor before any
    store access, and of what they raise only [LoadSpecError] is answered
    as a validation failure: a body that is not valid UTF-8, of which the
    single byte [0xff] is one, makes [put] raise [UnicodeDecodeError]
    instead of returning a response, with both stores as they were and no
    facade call made. *)
Theorem put_undecodable_body spec_id version user (w : World S D) language :
  server.headers request "X-LANGUAGE" = Some language →
  (∃ e, decode [xff] = inl e
        ∧ exc_class e = UnicodeDecodeError
        ∧ put_ [xff] spec_id version user w = (inl e, w, []))
  ∧ (∀ body e, decode body = inl e →
       exc_class e = UnicodeDecodeError
       ∧ put_ body spec_id version user w = (inl e, w, []))
  ∧ (∀ body text e, decode body = inr text → process text language = inl e →
       exc_class e = LoadSpecError →
       put_ body spec_id version user w =
         (inr {| server.response := Some ("the spec is not valid, " +:+ exc_str e);
                 server.status := 400;
                 server.mimetype := Some "text/plain" |}, w, []))
  ∧ (∀ body r w' t, put_ body spec_id version user w = (r, w', t) → t ≠ [] →
       ∃ text spec_info,
         decode body = inr text ∧ process text language = inr spec_info).
Proof.
  intros Hh.
  assert (Hraise : ∀ body e, decode body = inl e →
            exc_class e = UnicodeDecodeError
            ∧ put_ body spec_id version user w = (inl e, w, [])).
  { intros body e Hd. split.
    - unfold decode in Hd. destruct (utf8_valid _); [discriminate|].
      by injection Hd as <-.
    - by eapply put_decode_raises. }
  refine (conj _ (conj Hraise (conj _ _))).
  - eexists. split; [reflexivity|]. by apply Hraise.
  - intros body text e Hd Hp Hclass.
    rewrite (put_process_raises process cfg request _ _ _ _ _ _ _ _ Hh Hd Hp).
    unfold isinstance. rewrite Hclass. reflexivity.
  - intros body r w' t Hput Hne.
    destruct (put_trace_shape _ _ _ _ _ _ _ _ Hput)
      as [[-> _]|(language' & text & spec_info & Hh' & Hd & Hp & _)]; [done|].
    rewrite Hh in Hh'. injection Hh' as <-. eauto.
Qed.
End write_workflow.

(** ** Listing the versions of a spec *)

Section list_endpoint.
Context {S D : Type} `{!Storage S, !Models D}.
Variable json_dumps : list types.TSpecVersion → string.

(** What [list_] answers when the storage facade raises. *)
Lemma list_raises spec_id user (w : World S D) e :
  storage_get_spec_versions (storage w) user spec_id = inl e →
  versions.list_ json_dumps spec_id user w =
    (if isinstance e ObjectNotFoundError then
       inr {| server.response := Some ("could not find spec with id " +:+ spec_id);
              server.status := 404;
              server.mimetype := Some "text/plain" |}
     else if isinstance e StorageError then
       inr {| server.response :=
                Some "something went wrong whilst reading from the storage";
              server.status := 500;
              server.mimetype := Some "text/plain" |}
     else inl e,
     w, [GetSpecVersions user spec_id]).
Proof.
  intros Hget.
  unfold versions.list_, versions.try_except, mbind, versions.M_bind,
    versions.get_spec_versions.
  rewrite Hget. cbn. destruct e as [[] ?]; reflexivity.
Qed.

Lemma list_returns spec_id user (w : World S D) spec_versions :
  storage_get_spec_versions (storage w) user spec_id = inr spec_versions →
  versions.list_ json_dumps spec_id user w =
    (inr {| server.response := Some (json_dumps spec_versions);
            server.status := 200;
            server.mimetype := Some "application/json" |},
     w, [GetSpecVersions user spec_id]).
Proof.
  intros Hget.
  unfold versions.list_, versions.try_except, mbind, versions.M_bind,
    versions.get_spec_versions.
  rewrite Hget. reflexivity.
Qed.

(** [Database.list_spec_versions] passes on a non-empty list as it is
    and turns the empty list into [NotFoundError]. *)
Lemma list_spec_versions_run (db : D) sub id_ spec_infos :
  Spec_list_versions db sub id_ = inr spec_infos →
  Database.list_spec_versions db sub id_ =
    match spec_infos with
    | [] => inl (Raise NotFoundError ("could not find spec id " +:+ id_))
    | _ :: _ => inr spec_infos
    end.
Proof.
  intros Hlist. unfold Database.list_spec_versions. rewrite Hlist. cbn.
  by destruct spec_infos.
Qed.
End list_endpoint.

(** ** The in-memory tables *)

Section tables.
Import memory.
Implicit Types (db : Tables) (row : string * string * string * SpecItem).

Lemma elem_of_rows_of db sub id_ row :
  row ∈ rows_of db sub id_
  ↔ specs db !! row.1 = Some row.2 ∧ row.1.1.1 = sub ∧ row.1.1.2 = id_.
Proof.
  unfold rows_of. rewrite list_elem_of_filter, elem_of_map_to_list'. tauto.
Qed.

Lemma rows_of_nil db sub id_ :
  rows_of db sub id_ = [] ↔ ∀ version, specs db !! (sub, id_, version) = None.
Proof.
  split.
  - intros Hnil version.
    destruct (specs db !! (sub, id_, version)) as [item|] eqn:Hlookup; [|done].
    assert (Hin : (sub, id_, version, item) ∈ rows_of db sub id_)
      by (by apply elem_of_rows_of).
    rewrite Hnil in Hin. by apply elem_of_nil in Hin.
  - intros Hnone. destruct (rows_of db sub id_) as [|row rows] eqn:Hrows; [done|].
    assert (Hin : row ∈ rows_of db sub id_) by (rewrite Hrows; left).
    apply elem_of_rows_of in Hin as (Hlookup & Hsub & Hid).
    destruct row as [[[sub' id'] version] item]. cbn in *. subst.
    by rewrite Hnone in Hlookup.
Qed.

(** The listing of a reachable store. *)
Lemma list_versions_available db sub id_ :
  available db = true →
  list_versions db sub id_ =
    inr (to_info <$> merge_sort newer (rows_of db sub id_)).
Proof. intros Ha. unfold list_versions. by rewrite Ha. Qed.

Lemma list_versions_nil db sub id_ :
  to_info <$> merge_sort newer (rows_of db sub id_) = []
  ↔ ∀ version, specs db !! (sub, id_, version) = None.
Proof.
  rewrite <- rows_of_nil. split.
  - intros Hnil%fmap_nil_inv. apply Permutation_nil_r.
    rewrite <- Hnil. symmetry. apply merge_sort_Permutation.
  - intros Hnil. by rewrite Hnil.
Qed.

End tables.


(** C10.  On tables that can be reached, absence of a credential is a
    value: [get_credentials] returns [None] for a customer and credential
    id with no stored record, and [get_user] returns [None] for a public
    key that no stored credential has; absence of a spec is an exception:
    [get_latest_spec_version] and [list_spec_versions] raise
    [NotFoundError] for a spec id with no stored version. *)
Theorem credentials_absence_by_value (db : memory.Tables) :
  memory.available db = true →
  (∀ sub id_,
     memory.credentials db !! (sub, id_) = None →
     Database.get_credentials db sub id_ = inr None)
  ∧ (∀ public_key,
       (∀ key item, memory.credentials db !! key = Some item →
                    memory.item_public_key item ≠ public_key) →
       Database.get_user db public_key = inr None)
  ∧ (∀ sub id_,
       (∀ version, memory.specs db !! (sub, id_, version) = None) →
       (∃ e, Database.get_latest_spec_version db sub id_ = inl e
             ∧ exc_class e = NotFoundError)
       ∧ (∃ e, Database.list_spec_versions db sub id_ = inl e
               ∧ exc_class e = NotFoundError)).
Proof.
  intros Ha. refine (conj _ (conj _ _)).
  - intros sub id_ Hnone.
    unfold Database.get_credentials. cbn. unfold memory.get_item.
    by rewrite Ha, Hnone.
  - intros public_key Hnone.
    unfold Database.get_user. cbn. unfold memory.get_user. rewrite Ha.
    destruct (filter _ _) as [|entry entries] eqn:Hfilter; [done|].
    assert (Hin : entry ∈ filter
                    (λ entry, memory.item_public_key entry.2 = public_key)
                    (map_to_list (memory.credentials db)))
      by (rewrite Hfilter; left).
    apply list_elem_of_filter in Hin as [Hkey Hin].
    apply elem_of_map_to_list' in Hin. by apply Hnone in Hin.
  - intros sub id_ Hnone. apply list_versions_nil in Hnone.
    split.
    + unfold Database.get_latest_spec_version. cbn.
      unfold memory.get_latest_version.
      rewrite (list_versions_available _ sub id_ Ha). cbn.
      rewrite Hnone. eauto.
    + pose proof (list_spec_versions_run db sub id_ _
                    (list_versions_available _ sub id_ Ha)) as Hrun.
      rewrite Hrun, Hnone. eauto.
Qed.

(** ** The statements at the sample requests *)

(** The decoder on a few byte strings: ASCII, a two-byte character, an
    overlong form, a surrogate, a truncated character. *)
Example utf8_valid_samples :
  utf8_valid [97; 98]%N = true
  ∧ utf8_valid [195; 169]%N = true
  ∧ utf8_valid [192; 128]%N = false
  ∧ utf8_valid [237; 160; 128]%N = false
  ∧ utf8_valid [226; 130]%N = false
  ∧ utf8_valid [240; 159; 152; 128]%N = true
  ∧ utf8_valid [255]%N = false.
Proof. repeat split. Qed.

(** The written scenario: with a ceiling of 5, a customer with nothing
    stored writes a spec of 3 models and is accepted, after which the
    count is 3; a second write of 3 models under another spec id is
    rejected, the reason citing 5, 3 and 3. *)
Example free_tier_scenario :
  sample.put sample.body_1 "spec 1" "1" "user 1" memory.empty_world
  = (inr {| server.response := None; server.status := 204;
            server.mimetype := None |},
     sample.world_1,
     [CheckWouldExceedFreeTier "user 1" 3;
      StorageCreateUpdateSpec "user 1" "spec 1" "1" "{1}" None;
      DatabaseCreateUpdateSpec "user 1" "spec 1" "1" (Some "title") None 3 None])
  ∧ Database.count_customer_models (database sample.world_1) "user 1" = inr 3
  ∧ sample.put sample.body_1 "spec 2" "1" "user 1" sample.world_1
    = (inr {| server.response :=
                Some ("with this spec the maximum number of 5 models for the "
                      +:+ "free tier would be exceeded, current models count: 3, "
                      +:+ "models in this spec: 3");
              server.status := 402;
              server.mimetype := Some "text/plain" |},
       sample.world_1,
       [CheckWouldExceedFreeTier "user 1" 3]).
Proof. repeat split; vm_compute; reflexivity. Qed.

(** The listing endpoint on the sample stores: the stored version of a
    spec, a spec id with nothing stored, a blob store out of reach. *)
Example list_scenario :
  sample.list_ "spec 1" "user 1" sample.world_1
  = (inr {| server.response := Some "['1']";
            server.status := 200;
            server.mimetype := Some "application/json" |},
     sample.world_1, [GetSpecVersions "user 1" "spec 1"])
  ∧ (sample.list_ "spec 2" "user 1" sample.world_1).1.1
    = inr {| server.response := Some "could not find spec with id spec 2";
             server.status := 404;
             server.mimetype := Some "text/plain" |}
  ∧ (sample.list_ "spec 1" "user 1" sample.world_storage_down).1.1
    = inr {| server.response :=
               Some "something went wrong whilst reading from the storage";
             server.status := 500;
             server.mimetype := Some "text/plain" |}.
Proof. repeat split; vm_compute; reflexivity. Qed.

Lemma put_version_mismatch_witness :
  sample.put sample.body_1 "spec 1" "2" "user 1" memory.empty_world
  = (inr {| server.response :=
              Some "the requested version 2 does not match the version of the spec 1";
            server.status := 400;
            server.mimetype := Some "text/plain" |},
     memory.empty_world, []).
Proof.
  apply (put_version_mismatch sample.process sample.cfg sample.request
           sample.body_1 "spec 1" "2" "user 1" memory.empty_world "JSON" "1"
           {| spec.spec_str := "{1}"; spec.version := "1";
              spec.title := Some "title"; spec.description := None;
              spec.model_count := 3 |}).
  - reflexivity.
  - reflexivity.
  - reflexivity.
  - discriminate.
Defined.

Lemma check_would_exceed_free_tier_iff_witness :
  ∃ decision,
    Database.check_would_exceed_free_tier sample.cfg
      (database sample.world_1) "user 1" 2 = inr decision
    ∧ (types.result decision = true ↔ 3 + 2 > 5)
    ∧ (3 + 2 = 5 → types.result decision = false).
Proof.
  apply (check_would_exceed_free_tier_iff sample.cfg
           (database sample.world_1) "user 1" 2 3).
  vm_compute. reflexivity.
Defined.

(** C4 as written fails: the decision that accepts a write carries no
    reason. *)
Lemma check_would_exceed_free_tier_reason_absent :
  Database.check_would_exceed_free_tier sample.cfg memory.empty_tables "user 1" 3
  = inr {| types.result := false; types.reason := None |}
  ∧ ¬ (∀ cfg (db : memory.Tables) sub model_count decision,
         Database.check_would_exceed_free_tier cfg db sub model_count
         = inr decision →
         ∃ text, types.reason decision = Some text).
Proof.
  assert (Hrun :
    Database.check_would_exceed_free_tier sample.cfg memory.empty_tables
      "user 1" 3
    = inr {| types.result := false; types.reason := None |})
    by (vm_compute; reflexivity).
  split; [exact Hrun|].
  intros Hall. destruct (Hall _ _ _ _ _ Hrun) as [text Htext]. discriminate Htext.
Defined.

Lemma check_would_exceed_free_tier_reason_witness :
  ∃ current_count,
    Database.count_customer_models (database sample.world_1) "user 1"
    = inr current_count
    ∧ true = (current_count + 3 >? 5)
    ∧ ∃ text,
        Some ("with this spec the maximum number of 5 models for the free tier "
              +:+ "would be exceeded, current models count: 3, "
              +:+ "models in this spec: 3") = Some text
        ∧ text = "with this spec the maximum number of "
                 +:+ pretty 5
                 +:+ " models for the free tier would be exceeded, "
                 +:+ "current models count: " +:+ pretty current_count
                 +:+ ", models in this spec: " +:+ pretty 3
        ∧ embeds (pretty 5) text
        ∧ embeds (pretty current_count) text
        ∧ embeds (pretty 3) text.
Proof.
  apply (check_would_exceed_free_tier_reason sample.cfg
           (database sample.world_1) "user 1" 3
           {| types.result := true;
              types.reason :=
                Some ("with this spec the maximum number of 5 models for the "
                      +:+ "free tier would be exceeded, current models count: 3, "
                      +:+ "models in this spec: 3") |}).
  vm_compute. reflexivity.
Defined.

Lemma put_quota_exceeded_witness :
  ∃ reason,
    Some ("with this spec the maximum number of 5 models for the free tier "
          +:+ "would be exceeded, current models count: 3, "
          +:+ "models in this spec: 3") = Some reason
    ∧ sample.put sample.body_1 "spec 2" "1" "user 1" sample.world_1
      = (inr {| server.response := Some reason;
                server.status := 402;
                server.mimetype := Some "text/plain" |},
         sample.world_1, [CheckWouldExceedFreeTier "user 1" 3]).
Proof.
  apply (put_quota_exceeded sample.process sample.cfg sample.request
           sample.body_1 "spec 2" "1" "user 1" sample.world_1 "JSON" "1"
           {| spec.spec_str := "{1}"; spec.version := "1";
              spec.title := Some "title"; spec.description := None;
              spec.model_count := 3 |}
           {| types.result := true;
              types.reason :=
                Some ("with this spec the maximum number of 5 models for the "
                      +:+ "free tier would be exceeded, current models count: 3, "
                      +:+ "models in this spec: 3") |}).
  - reflexivity.
  - reflexivity.
  - reflexivity.
  - reflexivity.
  - vm_compute. reflexivity.
  - reflexivity.
Defined.

Lemma check_would_exceed_free_tier_monotone_witness :
  (∃ larger,
     Database.check_would_exceed_free_tier sample.cfg
       (database sample.world_1) "user 1" 4 = inr larger
     ∧ types.result larger = true)
  ∧ (∃ lowered,
       Database.check_would_exceed_free_tier sample.cfg_4
         (database sample.world_1) "user 1" 3 = inr lowered
       ∧ types.result lowered = true).
Proof.
  apply (check_would_exceed_free_tier_monotone sample.cfg sample.cfg_4
           (database sample.world_1) "user 1" 3 4
           {| types.result := true;
              types.reason :=
                Some ("with this spec the maximum number of 5 models for the "
                      +:+ "free tier would be exceeded, current models count: 3, "
                      +:+ "models in this spec: 3") |}).
  - vm_compute. reflexivity.
  - reflexivity.
  - lia.
  - cbn. lia.
Defined.

(** With the blob store out of reach the write stops at the blob write:
    the metadata store is as it was and no metadata write was made. *)
Lemma put_store_order_witness :
  sample.put sample.body_1 "spec 1" "1" "user 1" sample.world_storage_down
  = (inr {| server.response := Some "something went wrong whilst storing the spec";
            server.status := 500;
            server.mimetype := Some "text/plain" |},
     sample.world_storage_down,
     [CheckWouldExceedFreeTier "user 1" 3;
      StorageCreateUpdateSpec "user 1" "spec 1" "1" "{1}"
        (Some memory.storage_fault)])
  ∧ database sample.world_storage_down = database sample.world_storage_down
  ∧ ∀ ev,
      ev ∈ [CheckWouldExceedFreeTier "user 1" 3;
            StorageCreateUpdateSpec "user 1" "spec 1" "1" "{1}"
              (Some memory.storage_fault)] →
      is_database_write ev = false.
Proof.
  assert (Hrun :
    sample.put sample.body_1 "spec 1" "1" "user 1" sample.world_storage_down
    = (inr {| server.response :=
                Some "something went wrong whilst storing the spec";
              server.status := 500;
              server.mimetype := Some "text/plain" |},
       sample.world_storage_down,
       [CheckWouldExceedFreeTier "user 1" 3;
        StorageCreateUpdateSpec "user 1" "spec 1" "1" "{1}"
          (Some memory.storage_fault)]))
    by (vm_compute; reflexivity).
  split; [exact Hrun|].
  destruct (put_store_order sample.process sample.cfg sample.request
              sample.body_1 "spec 1" "1" "user 1" sample.world_storage_down
              _ _ _ Hrun) as (_ & _ & _ & Hfailed & _).
  apply (Hfailed "user 1" "spec 1" "1" "{1}" memory.storage_fault).
  apply list_elem_of_further, list_elem_of_here.
Defined.

Lemma put_success_writes_witness :
  ∃ language text spec_info,
    server.headers sample.request "X-LANGUAGE" = Some language
    ∧ decode sample.body_1 = inr text
    ∧ sample.process text language = inr spec_info
    ∧ [CheckWouldExceedFreeTier "user 1" 3;
       StorageCreateUpdateSpec "user 1" "spec 1" "1" "{1}" None;
       DatabaseCreateUpdateSpec "user 1" "spec 1" "1" (Some "title") None 3 None]
      = [CheckWouldExceedFreeTier "user 1" (spec.model_count spec_info);
         StorageCreateUpdateSpec "user 1" "spec 1" (spec.version spec_info)
           (spec.spec_str spec_info) None;
         DatabaseCreateUpdateSpec "user 1" "spec 1" (spec.version spec_info)
           (spec.title spec_info) (spec.description spec_info)
           (spec.model_count spec_info) None]
    ∧ storage_create_update_spec (storage memory.empty_world) "user 1" "spec 1"
        (spec.version spec_info) (spec.spec_str spec_info)
      = (None, storage sample.world_1)
    ∧ Database.create_update_spec (database memory.empty_world) "user 1" "spec 1"
        (spec.version spec_info) (spec.model_count spec_info)
        (spec.title spec_info) (spec.description spec_info)
      = (None, database sample.world_1).
Proof.
  apply (put_success_writes sample.process sample.cfg sample.request
           sample.body_1 "spec 1" "1" "user 1" memory.empty_world sample.world_1
           {| server.response := None; server.status := 204;
              server.mimetype := None |}).
  - vm_compute. reflexivity.
  - reflexivity.
Defined.

Lemma put_undecodable_body_witness :
  ∃ e, decode [xff] = inl e
       ∧ exc_class e = UnicodeDecodeError
       ∧ sample.put [xff] "spec 1" "1" "user 1" memory.empty_world
         = (inl e, memory.empty_world, []).
Proof.
  apply (put_undecodable_body sample.process sample.cfg sample.request
           "spec 1" "1" "user 1" memory.empty_world "JSON").
  reflexivity.
Defined.



Lemma credentials_absence_by_value_witness :
  Database.get_credentials memory.empty_tables "user 1" "key 1" = inr None
  ∧ Database.get_user memory.empty_tables "public key 1" = inr None
  ∧ (∃ e, Database.get_latest_spec_version memory.empty_tables "user 1" "spec 1"
          = inl e ∧ exc_class e = NotFoundError).
Proof.
  destruct (credentials_absence_by_value memory.empty_tables eq_refl)
    as (Hitem & Huser & Hspec).
  split; [|split].
  - apply Hitem. apply lookup_empty.
  - apply Huser. intros key item Hlookup. cbn in Hlookup.
    by rewrite lookup_empty in Hlookup.
  - apply (Hspec "user 1" "spec 1"). intros version. apply lookup_empty.
Defined.

(** * Further properties of the endpoints *)

(** ** Every exit of [put] *)

(** The hypothesis [H], a run of [put], is rewritten with the stage
    lemma of the exit the run took. *)
Ltac put_exits H process cfg request body spec_id version user w :=
  let language := fresh "language" in
  let text := fresh "text" in
  let spec_info := fresh "spec_info" in
  let decision := fresh "decision" in
  let e := fresh "e" in
  let s' := fresh "s'" in
  let d' := fresh "d'" in
  let Hh := fresh "Hheader" in
  let Hd := fresh "Hdecode" in
  let Hp := fresh "Hprocess" in
  let Hv := fresh "Hversion" in
  let Hc := fresh "Hcheck" in
  let Hr := fresh "Hresult" in
  let Hs := fresh "Hstorage" in
  let Hw := fresh "Hdatabase" in
  destruct (server.headers request "X-LANGUAGE") as [language|] eqn:Hh;
  [ destruct (decode body) as [e|text] eqn:Hd;
    [ rewrite (put_decode_raises process cfg request _ spec_id version user w
                 _ _ Hh Hd) in H
    | destruct (process text language) as [e|spec_info] eqn:Hp;
      [ rewrite (put_process_raises process cfg request _ spec_id version user w
                   _ _ _ Hh Hd Hp) in H
      | destruct (decide (version = spec.version spec_info)) as [Hv|Hv];
        [ destruct (Database.check_would_exceed_free_tier cfg (database w) user
                      (spec.model_count spec_info)) as [e|decision] eqn:Hc;
          [ rewrite (put_check_raises process cfg request _ spec_id version user w
                       _ _ _ _ Hh Hd Hp Hv Hc) in H
          | destruct (types.result decision) eqn:Hr;
            [ rewrite (put_exceeded process cfg request _ spec_id version user w
                         _ _ _ _ Hh Hd Hp Hv Hc Hr) in H
            | destruct (storage_create_update_spec (storage w) user spec_id
                          (spec.version spec_info) (spec.spec_str spec_info))
                as [[e|] s'] eqn:Hs;
              [ rewrite (put_storage_raises process cfg request _ spec_id version
                           user w _ _ _ _ _ _ Hh Hd Hp Hv Hc Hr Hs) in H
              | destruct (Database.create_update_spec (database w) user spec_id
                            (spec.version spec_info) (spec.model_count spec_info)
                            (spec.title spec_info) (spec.description spec_info))
                  as [[e|] d'] eqn:Hw;
                [ rewrite (put_database_raises process cfg request _ spec_id
                             version user w _ _ _ _ _ _ _ Hh Hd Hp Hv Hc Hr Hs Hw)
                    in H
                | rewrite (put_success process cfg request _ spec_id version
                             user w _ _ _ _ _ _ Hh Hd Hp Hv Hc Hr Hs Hw) in H ] ] ] ]
        | rewrite (put_mismatch process cfg request _ spec_id version user w
                     _ _ _ Hh Hd Hp Hv) in H ] ] ]
  | rewrite (put_no_header process cfg request body spec_id version user w Hh)
      in H ].

Section put_exits.
Context {S D : Type} `{!Storage S, !Models D}.
Variable process : string → string → outcome spec.SpecInfo.
Variables (cfg : config.TConfig) (request : server.Request).

Local Abbreviation put_ := (versions.put (S := S) (D := D) process cfg request).

Local Abbreviation handled e :=
  (if isinstance e LoadSpecError then
     inr {| server.response := Some ("the spec is not valid, " +:+ exc_str e);
            server.status := 400;
            server.mimetype := Some "text/plain" |}
   else if isinstance e StorageError then
     inr {| server.response := Some "something went wrong whilst storing the spec";
            server.status := 500;
            server.mimetype := Some "text/plain" |}
   else if isinstance e DatabaseError then
     inr {| server.response :=
              Some "something went wrong whilst updating the database";
            server.status := 500;
            server.mimetype := Some "text/plain" |}
   else inl e : outcome server.Response).

(** An exception leaves the [except] clauses only if it is an instance
    of none of their classes, and it leaves them as it is. *)
Lemma handled_raises (e e' : exception) :
  handled e = inl e' →
  e' = e
  ∧ isinstance e LoadSpecError = false
  ∧ isinstance e StorageError = false
  ∧ isinstance e DatabaseError = false.
Proof. destruct e as [[] ?]; cbn; intros [= <-]; done. Qed.

(** What an [except] clause returns has a text and is plain text. *)
Lemma handled_shape (e : exception) (resp : server.Response) :
  handled e = inr resp →
  (server.status resp = 400 ∨ server.status resp = 500)
  ∧ (∃ text, server.response resp = Some text)
  ∧ server.mimetype resp = Some "text/plain".
Proof. destruct e as [[] ?]; cbn; intros [= <-]; cbn; eauto. Qed.

Lemma handled_database_error (e : exception) :
  isinstance e DatabaseError = true →
  handled e
  = inr {| server.response :=
             Some "something went wrong whilst updating the database";
           server.status := 500;
           server.mimetype := Some "text/plain" |}.
Proof. destruct e as [[] ?]; cbn; done. Qed.

(** X1.  A request without the [X-LANGUAGE] header makes [put] raise
    [KeyError] before the [try]: whatever the body and the declared
    version, no response is returned, nothing is decoded or processed,
    no facade is called and the stores are as they were. *)
Theorem put_requires_language_header body spec_id version user (w : World S D) :
  server.headers request "X-LANGUAGE" = None →
  put_ body spec_id version user w = (inl (Raise KeyError "X-LANGUAGE"), w, [])
  ∧ ∀ resp w' t, put_ body spec_id version user w ≠ (inr resp, w', t).
Proof.
  intros Hh.
  rewrite (put_no_header process cfg request body spec_id version user w Hh).
  split; [done|]. intros resp w' t [=].
Qed.

(** X2.  Whenever [put] returns, the response is a 204 without body and
    mimetype, or a 400, 402 or 500 with a text as body and mimetype
    [text/plain]. *)
Theorem put_response_shape body spec_id version user (w w' : World S D) resp t :
  put_ body spec_id version user w = (inr resp, w', t) →
  (server.status resp = 204
   ∧ server.response resp = None
   ∧ server.mimetype resp = None)
  ∨ ((server.status resp = 400 ∨ server.status resp = 402
      ∨ server.status resp = 500)
     ∧ (∃ text, server.response resp = Some text)
     ∧ server.mimetype resp = Some "text/plain").
Proof.
  intros Hput.
  put_exits Hput process cfg request body spec_id version user w;
    injection Hput as Hresp <- <-;
    try discriminate;
    try (apply handled_shape in Hresp as ([Hs|Hs] & Htext & Hmime);
         right; rewrite Hs; by auto).
  - (* the free tier is exceeded *)
    subst resp. right. cbn. split; [auto|]. split; [|done].
    destruct (check_would_exceed_free_tier_counted _ _ _ _ _ Hcheck)
      as [current_count Hcount].
    rewrite (check_would_exceed_free_tier_run cfg _ _ _ _ Hcount) in Hcheck.
    injection Hcheck as <-.
    destruct (_ >? _); cbn in *; [eauto|discriminate].
  - (* success *)
    subst resp. by left.
  - (* version mismatch *)
    subst resp. right. cbn. eauto.
Qed.

(** X3.  No [LoadSpecError], [StorageError] (so no [ObjectNotFoundError])
    and no [DatabaseError] ever leaves [put]: an exception that [put]
    raises is an instance of none of the three. *)
Theorem put_raises_only_unhandled body spec_id version user (w w' : World S D) e t :
  put_ body spec_id version user w = (inl e, w', t) →
  isinstance e LoadSpecError = false
  ∧ isinstance e StorageError = false
  ∧ isinstance e DatabaseError = false.
Proof.
  intros Hput.
  put_exits Hput process cfg request body spec_id version user w;
    injection Hput as Hraise <- <-;
    try discriminate;
    try (apply handled_raises in Hraise as (-> & ? & ? & ?); done).
  - (* the body does not decode *)
    subst. unfold decode in Hdecode. destruct (utf8_valid _); [discriminate|].
    by injection Hdecode as <-.
  - (* no language header *)
    subst. by cbn.
Qed.
(** X4.  [put] does not undo the blob write when the metadata write
    fails: in every run in which the metadata write raised, the blob
    store is left as the blob write made it, the failed write is the last
    facade call, and a [DatabaseError] is answered with the 500 of the
    database clause. *)
Theorem put_failed_metadata_write_keeps_blob
    body spec_id version user (w w' : World S D) r t
    sub id_ derived title description model_count e :
  put_ body spec_id version user w = (r, w', t) →
  DatabaseCreateUpdateSpec sub id_ derived title description model_count (Some e)
    ∈ t →
  ∃ spec_str,
    storage_create_update_spec (storage w) user spec_id derived spec_str
    = (None, storage w')
    ∧ t = [CheckWouldExceedFreeTier user model_count;
           StorageCreateUpdateSpec user spec_id derived spec_str None;
           DatabaseCreateUpdateSpec user spec_id derived title description
             model_count (Some e)]
    ∧ (isinstance e DatabaseError = true →
       r = inr {| server.response :=
                    Some "something went wrong whilst updating the database";
                  server.status := 500;
                  server.mimetype := Some "text/plain" |}).
Proof.
  intros Hput Hin.
  put_exits Hput process cfg request body spec_id version user w;
    injection Hput as <- <- <-;
    repeat match goal with
      | H : _ ∈ [] |- _ => by apply elem_of_nil in H
      | H : _ ∈ _ :: _ |- _ => apply elem_of_cons in H as [H|H]; [simplify_eq|]
      end.
  injection Hin as -> -> -> -> -> -> ->.
  exists (spec.spec_str spec_info). split; [done|]. split; [done|].
  apply handled_database_error.
Qed.

(** X5.  The free tier decision does not look at the spec id: when [put]
    answers 402 for one spec id it answers the same 402, with the same
    single facade call and the stores as they were, for every spec id. *)
Theorem put_quota_rejection_any_spec_id
    body spec_id spec_id' version user (w w' : World S D) resp t :
  put_ body spec_id version user w = (inr resp, w', t) →
  server.status resp = 402 →
  put_ body spec_id' version user w = (inr resp, w', t) ∧ w' = w.
Proof.
  intros Hput Hstatus.
  destruct (put_402_only_if_exceeded process cfg request _ _ _ _ _ _ _ _
              Hput Hstatus)
    as (language & text & spec_info & decision & Hh & Hd & Hp & Hv & Hc & Hr).
  rewrite (put_exceeded process cfg request _ _ _ _ _ _ _ _ _ Hh Hd Hp Hv Hc Hr)
    in Hput.
  injection Hput as <- <- <-.
  split; [|done].
  apply (put_exceeded process cfg request _ _ _ _ _ _ _ _ _ Hh Hd Hp Hv Hc Hr).
Qed.

(** X6.  [put] makes at most three facade calls, each of them for the
    requesting user and each write for the requested spec id; it never
    lists versions. *)
Theorem put_calls_confined body spec_id version user (w w' : World S D) r t :
  put_ body spec_id version user w = (r, w', t) →
  (length t ≤ 3)%nat ∧ Forall (put_call user spec_id) t.
Proof.
  intros Hput.
  destruct (put_trace_shape process cfg request _ _ _ _ _ _ _ _ Hput)
    as [[-> ->]|(language & text & spec_info & Hh & Hd & Hp & Hv
        & [[-> ->]|(decision & Hc & Hr
           & [(e & s' & -> & ->)|(raised & s' & d' & -> & ->)])])];
    cbn; (split; [lia|]); repeat constructor.
Qed.

(** X7.  A [DatabaseError] raised by the free tier check is answered
    with the 500 of the database clause, although nothing was written:
    the stores are as they were and the check is the only facade call. *)
Theorem put_check_fault body spec_id version user (w : World S D)
    language text spec_info e :
  server.headers request "X-LANGUAGE" = Some language →
  decode body = inr text →
  process text language = inr spec_info →
  version = spec.version spec_info →
  Database.count_customer_models (database w) user = inl e →
  isinstance e DatabaseError = true →
  put_ body spec_id version user w =
    (inr {| server.response :=
              Some "something went wrong whilst updating the database";
            server.status := 500;
            server.mimetype := Some "text/plain" |},
     w, [CheckWouldExceedFreeTier user (spec.model_count spec_info)]).
Proof.
  intros Hh Hd Hp Hv Hcount He.
  assert (Hc : Database.check_would_exceed_free_tier cfg (database w) user
                 (spec.model_count spec_info) = inl e).
  { unfold Database.check_would_exceed_free_tier. by rewrite Hcount. }
  rewrite (put_check_raises process cfg request _ _ _ _ _ _ _ _ _
             Hh Hd Hp Hv Hc).
  by rewrite handled_database_error.
Qed.
End put_exits.

(** ** The listing endpoint and the listing of the database *)

Section listing.
Context {S D : Type} `{!Storage S, !Models D}.
Variable json_dumps : list types.TSpecVersion → string.

(** X8.  [list_] makes exactly one facade call, the listing for the user
    and the spec id, and leaves the stores as they were.  It answers 200
    with the dumped versions when the facade returns them, 404 when the
    facade raises an [ObjectNotFoundError], 500 when it raises another
    [StorageError], and raises what the facade raised otherwise. *)
Theorem list_run spec_id user (w : World S D) :
  ∃ r,
    versions.list_ json_dumps spec_id user w
    = (r, w, [GetSpecVersions user spec_id])
    ∧ match r with
      | inr resp =>
          (server.status resp = 200
           ∧ ∃ spec_versions,
               storage_get_spec_versions (storage w) user spec_id
               = inr spec_versions
               ∧ server.response resp = Some (json_dumps spec_versions))
          ∨ (server.status resp = 404
             ∧ ∃ e, storage_get_spec_versions (storage w) user spec_id = inl e
                    ∧ isinstance e ObjectNotFoundError = true)
          ∨ (server.status resp = 500
             ∧ ∃ e, storage_get_spec_versions (storage w) user spec_id = inl e
                    ∧ isinstance e ObjectNotFoundError = false
                    ∧ isinstance e StorageError = true)
      | inl e =>
          storage_get_spec_versions (storage w) user spec_id = inl e
          ∧ isinstance e StorageError = false
      end.
Proof.
  destruct (storage_get_spec_versions (storage w) user spec_id)
    as [e|spec_versions] eqn:Hget.
  - rewrite (list_raises json_dumps _ _ _ _ Hget). eexists. split; [done|].
    destruct (isinstance e ObjectNotFoundError) eqn:Hnf; [eauto 10|].
    destruct (isinstance e StorageError) eqn:Hse; [eauto 10|]. done.
  - rewrite (list_returns json_dumps _ _ _ _ Hget). eexists. split; [done|].
    left. cbn. eauto.
Qed.

(** X9.  [Database.list_spec_versions] never returns an empty list: what
    it returns is the non-empty list [models] returned, as it is; what it
    raises is what [models] raised, or, when [models] returned the empty
    list, the [NotFoundError] whose text names the spec id. *)
Theorem list_spec_versions_contract (db : D) sub id_ :
  match Database.list_spec_versions db sub id_ with
  | inr spec_infos =>
      spec_infos ≠ [] ∧ Spec_list_versions db sub id_ = inr spec_infos
  | inl e =>
      Spec_list_versions db sub id_ = inl e
      ∨ (Spec_list_versions db sub id_ = inr []
         ∧ e = Raise NotFoundError ("could not find spec id " +:+ id_))
  end.
Proof.
  unfold Database.list_spec_versions.
  destruct (Spec_list_versions db sub id_) as [e|[|info infos]]; cbn; auto.
Qed.

(** X10.  The free tier check raises nothing of its own: it raises
    exactly when counting the customer's models raises, and then the same
    exception. *)
Theorem check_would_exceed_free_tier_raises cfg (db : D) sub model_count e :
  Database.check_would_exceed_free_tier cfg db sub model_count = inl e
  ↔ Database.count_customer_models db sub = inl e.
Proof.
  unfold Database.check_would_exceed_free_tier.
  destruct (Database.count_customer_models db sub) as [e'|current_count]; cbn.
  - split; intros [= ->]; done.
  - destruct (_ >? _); split; discriminate.
Qed.
End listing.

(** ** Reading the numbers back from the reason *)

Lemma append_cons c (s1 s2 : string) : String c s1 +:+ s2 = String c (s1 +:+ s2).
Proof. reflexivity. Qed.

Lemma numeric_pretty_N_go (x : N) (s : string) :
  numeric s = true → numeric (pretty_N_go x s) = true.
Proof.
  revert s. induction (N.lt_wf_0 x) as [x _ IH]. intros s Hs.
  destruct (decide (x = 0)%N) as [->|Hx]; [by rewrite pretty_N_go_0|].
  rewrite pretty_N_go_step by lia. apply IH; [apply N.div_lt; lia|].
  cbn. rewrite Hs, andb_true_r.
  unfold pretty_N_char. by repeat case_match.
Qed.

Lemma numeric_pretty (z : Z) : numeric (pretty z) = true.
Proof.
  assert (HN : ∀ n : N, numeric (pretty n) = true).
  { intros n. unfold pretty, pretty_N. case_decide; [done|].
    by apply numeric_pretty_N_go. }
  destruct z as [|p|p]; [done|apply HN|].
  change (pretty (Z.neg p)) with ("-" +:+ pretty (N.pos p)).
  rewrite append_cons. cbn. apply HN.
Qed.

(** Two printed numbers, each followed by a character no number has,
    are equal when the texts are. *)
Lemma numeric_prefix_inj (p1 p2 : string) c1 c2 (s1 s2 : string) :
  numeric p1 = true → numeric p2 = true →
  numeric_char c1 = false → numeric_char c2 = false →
  p1 +:+ String c1 s1 = p2 +:+ String c2 s2 →
  p1 = p2 ∧ s1 = s2.
Proof.
  revert p2. induction p1 as [|a p1 IH]; intros [|b p2] H1 H2 Hc1 Hc2 Heq.
  - by injection Heq as -> ->.
  - rewrite append_cons in Heq. injection Heq as -> _.
    cbn in H2. apply andb_prop in H2 as [H2 _]. congruence.
  - rewrite append_cons in Heq. injection Heq as -> _.
    cbn in H1. apply andb_prop in H1 as [H1 _]. congruence.
  - rewrite !append_cons in Heq. injection Heq as -> Heq.
    cbn in H1, H2. apply andb_prop in H1 as [_ H1].
    apply andb_prop in H2 as [_ H2].
    destruct (IH p2 H1 H2 Hc1 Hc2 Heq) as [-> ->]. done.
Qed.

Lemma exceeded_reason_inj ceiling current_count model_count
    ceiling' current_count' model_count' :
  Database.exceeded_reason ceiling current_count model_count
  = Database.exceeded_reason ceiling' current_count' model_count' →
  ceiling = ceiling' ∧ current_count = current_count'
  ∧ model_count = model_count'.
Proof.
  unfold Database.exceeded_reason. intros Heq.
  apply String.app_inj in Heq.
  apply numeric_prefix_inj in Heq as [Hceiling Heq];
    [|apply numeric_pretty..|done|done].
  apply (String.app_inj "models for the free ") in Heq.
  apply String.app_inj in Heq.
  apply numeric_prefix_inj in Heq as [Hcount Heq];
    [|apply numeric_pretty..|done|done].
  apply (String.app_inj " models in this spec: ") in Heq.
  by apply (inj pretty) in Hceiling, Hcount, Heq.
Qed.

Section reason.
Context {D : Type} `{!Models D}.

(** X11.  The reason of a rejection says which rejection it is: when two
    decisions of the free tier check that report the free tier exceeded
    carry the same reason, they were taken for the same ceiling, the same
    stored count and the same proposed count. *)
Theorem check_would_exceed_free_tier_reason_inj
    cfg cfg' (db db' : D) sub sub' model_count model_count' decision decision' :
  Database.check_would_exceed_free_tier cfg db sub model_count = inr decision →
  Database.check_would_exceed_free_tier cfg' db' sub' model_count'
  = inr decision' →
  types.result decision = true →
  types.reason decision = types.reason decision' →
  config.free_tier_model_count cfg = config.free_tier_model_count cfg'
  ∧ Database.count_customer_models db sub
    = Database.count_customer_models db' sub'
  ∧ model_count = model_count'.
Proof.
  intros Hcheck Hcheck' Hresult Hreason.
  destruct (check_would_exceed_free_tier_counted _ _ _ _ _ Hcheck)
    as [current_count Hcount].
  destruct (check_would_exceed_free_tier_counted _ _ _ _ _ Hcheck')
    as [current_count' Hcount'].
  rewrite (check_would_exceed_free_tier_run cfg _ _ _ _ Hcount) in Hcheck.
  rewrite (check_would_exceed_free_tier_run cfg' _ _ _ _ Hcount') in Hcheck'.
  injection Hcheck as <-. injection Hcheck' as <-.
  destruct (current_count + model_count >? _); [|discriminate].
  destruct (current_count' + model_count' >? _); [|discriminate].
  cbv [types.reason] in Hreason. apply (inj Some) in Hreason.
  apply exceeded_reason_inj in Hreason as (? & ? & ?).
  rewrite Hcount, Hcount'. by subst.
Qed.
End reason.

(** ** The [get] endpoint *)

Section get_endpoint.
Context {S : Type} `{!StorageSpecs S}.
Variable prepare : string → types.TSpecVersion → outcome string.

(** What the two [except] clauses of [get] make of an exception. *)
Lemma get_raises spec_id version user (s : S) e :
  (storage_get_spec s user spec_id version = inl e
   ∨ ∃ spec_str,
       storage_get_spec s user spec_id version = inr spec_str
       ∧ prepare spec_str version = inl e) →
  reading.get prepare spec_id version user s =
    if isinstance e ObjectNotFoundError then
      inr {| server.response :=
               Some ("could not find the spec with id " +:+ spec_id);
             server.status := 404;
             server.mimetype := Some "text/plain" |}
    else if isinstance e StorageError then
      inr {| server.response := Some "something went wrong whilst reading the spec";
             server.status := 500;
             server.mimetype := Some "text/plain" |}
    else inl e.
Proof.
  unfold reading.get, reading.try_except.
  intros [Hget|(spec_str & Hget & Hprepare)]; rewrite Hget; cbn;
    [|rewrite Hprepare; cbn]; destruct e as [[] ?]; reflexivity.
Qed.

Lemma get_returns spec_id version user (s : S) spec_str prepared_spec_str :
  storage_get_spec s user spec_id version = inr spec_str →
  prepare spec_str version = inr prepared_spec_str →
  reading.get prepare spec_id version user s =
    inr {| server.response := Some prepared_spec_str;
           server.status := 200;
           server.mimetype := Some "text/plain" |}.
Proof.
  intros Hget Hprepare. unfold reading.get, reading.try_except.
  rewrite Hget. cbn. rewrite Hprepare. reflexivity.
Qed.

(** X12.  [get] answers 200 only with the prepared text of the stored
    document, 404 naming the spec id only for an [ObjectNotFoundError],
    500 only for another [StorageError], and it raises only what the
    storage facade or [spec.prepare] raised outside the storage error
    classes. *)
Theorem get_run spec_id version user (s : S) :
  match reading.get prepare spec_id version user s with
  | inr resp =>
      (server.status resp = 200
       ∧ ∃ spec_str prepared_spec_str,
           storage_get_spec s user spec_id version = inr spec_str
           ∧ prepare spec_str version = inr prepared_spec_str
           ∧ server.response resp = Some prepared_spec_str)
      ∨ ∃ e,
          (storage_get_spec s user spec_id version = inl e
           ∨ ∃ spec_str,
               storage_get_spec s user spec_id version = inr spec_str
               ∧ prepare spec_str version = inl e)
          ∧ ((server.status resp = 404
              ∧ isinstance e ObjectNotFoundError = true
              ∧ server.response resp
                = Some ("could not find the spec with id " +:+ spec_id))
             ∨ (server.status resp = 500
                ∧ isinstance e ObjectNotFoundError = false
                ∧ isinstance e StorageError = true))
  | inl e =>
      (storage_get_spec s user spec_id version = inl e
       ∨ ∃ spec_str,
           storage_get_spec s user spec_id version = inr spec_str
           ∧ prepare spec_str version = inl e)
      ∧ isinstance e StorageError = false
  end.
Proof.
  assert (Hraised : ∀ e,
    (storage_get_spec s user spec_id version = inl e
     ∨ ∃ spec_str,
         storage_get_spec s user spec_id version = inr spec_str
         ∧ prepare spec_str version = inl e) →
    match reading.get prepare spec_id version user s with
    | inr resp =>
        ∃ e,
          (storage_get_spec s user spec_id version = inl e
           ∨ ∃ spec_str,
               storage_get_spec s user spec_id version = inr spec_str
               ∧ prepare spec_str version = inl e)
          ∧ ((server.status resp = 404
              ∧ isinstance e ObjectNotFoundError = true
              ∧ server.response resp
                = Some ("could not find the spec with id " +:+ spec_id))
             ∨ (server.status resp = 500
                ∧ isinstance e ObjectNotFoundError = false
                ∧ isinstance e StorageError = true))
    | inl e =>
        (storage_get_spec s user spec_id version = inl e
         ∨ ∃ spec_str,
             storage_get_spec s user spec_id version = inr spec_str
             ∧ prepare spec_str version = inl e)
        ∧ isinstance e StorageError = false
    end).
  { intros e He. rewrite (get_raises _ _ _ _ _ He).
    destruct (isinstance e ObjectNotFoundError) eqn:Hnf.
    - exists e. split; [done|]. left. by cbn.
    - destruct (isinstance e StorageError) eqn:Hse.
      + exists e. split; [done|]. right. by cbn.
      + done. }
  destruct (storage_get_spec s user spec_id version) as [e|spec_str] eqn:Hget.
  - specialize (Hraised e (or_introl eq_refl)).
    destruct (reading.get _ _ _ _ _); [done|by right].
  - destruct (prepare spec_str version) as [e|prepared_spec_str] eqn:Hprepare.
    + specialize (Hraised e (or_intror (ex_intro _ spec_str (conj eq_refl Hprepare)))).
      destruct (reading.get _ _ _ _ _); [done|by right].
    + rewrite (get_returns _ _ _ _ _ _ Hget Hprepare). left. cbn.
      split; [done|]. by exists spec_str, prepared_spec_str.
Qed.

(** X13.  What [spec.prepare] raises while [get] prepares a document
    that was found goes through the storage clauses: outside the storage
    error classes it leaves [get] as an exception, and inside them it is
    answered as if the storage had failed, a 404 that says the spec could
    not be found included. *)
Theorem get_prepare_raises spec_id version user (s : S) spec_str e :
  storage_get_spec s user spec_id version = inr spec_str →
  prepare spec_str version = inl e →
  (isinstance e StorageError = false →
   reading.get prepare spec_id version user s = inl e)
  ∧ (isinstance e ObjectNotFoundError = true →
     reading.get prepare spec_id version user s =
       inr {| server.response :=
                Some ("could not find the spec with id " +:+ spec_id);
              server.status := 404;
              server.mimetype := Some "text/plain" |})
  ∧ (isinstance e ObjectNotFoundError = false →
     isinstance e StorageError = true →
     reading.get prepare spec_id version user s =
       inr {| server.response :=
                Some "something went wrong whilst reading the spec";
              server.status := 500;
              server.mimetype := Some "text/plain" |}).
Proof.
  intros Hget Hprepare.
  rewrite (get_raises spec_id version user s e) by eauto.
  repeat split.
  - destruct e as [[] ?]; cbn; intros; done.
  - by intros ->.
  - by intros -> ->.
Qed.
End get_endpoint.

(** ** The further properties at sample requests *)

(** [get] on the sample blob store: a stored version, a version that is
    not stored, the empty document that cannot be prepared, a store out
    of reach. *)
Example get_scenario :
  faults.get "spec 1" "1" "user 1" faults.blobs_2
  = inr {| server.response := Some "version 1: {1}";
           server.status := 200;
           server.mimetype := Some "text/plain" |}
  ∧ faults.get "spec 1" "3" "user 1" faults.blobs_2
    = inr {| server.response := Some "could not find the spec with id spec 1";
             server.status := 404;
             server.mimetype := Some "text/plain" |}
  ∧ faults.get "spec 1" "2" "user 1" faults.blobs_2 = inl (Raise KeyError "info")
  ∧ faults.get "spec 1" "1" "user 1" (storage sample.world_storage_down)
    = inr {| server.response := Some "something went wrong whilst reading the spec";
             server.status := 500;
             server.mimetype := Some "text/plain" |}.
Proof. repeat split; vm_compute; reflexivity. Qed.

Lemma put_requires_language_header_witness :
  faults.put_no_language sample.body_ff "spec 1" "2" "user 1" memory.empty_world
  = (inl (Raise KeyError "X-LANGUAGE"), memory.empty_world, [])
  ∧ ∀ resp w' t,
      faults.put_no_language sample.body_ff "spec 1" "2" "user 1"
        memory.empty_world ≠ (inr resp, w', t).
Proof.
  apply (put_requires_language_header sample.process sample.cfg
           faults.request_no_language sample.body_ff "spec 1" "2" "user 1"
           memory.empty_world).
  reflexivity.
Defined.

Lemma put_response_shape_witness :
  (204 = 204 ∧ @None string = None ∧ @None string = None)
  ∨ ((204 = 400 ∨ 204 = 402 ∨ 204 = 500)
     ∧ (∃ text : string, None = Some text)
     ∧ @None string = Some "text/plain").
Proof.
  apply (put_response_shape sample.process sample.cfg sample.request
           sample.body_1 "spec 1" "1" "user 1" memory.empty_world sample.world_1
           {| server.response := None; server.status := 204;
              server.mimetype := None |}
           [CheckWouldExceedFreeTier "user 1" 3;
            StorageCreateUpdateSpec "user 1" "spec 1" "1" "{1}" None;
            DatabaseCreateUpdateSpec "user 1" "spec 1" "1" (Some "title") None
              3 None]).
  vm_compute. reflexivity.
Defined.

Lemma put_raises_only_unhandled_witness :
  isinstance (Raise UnicodeDecodeError "'utf-8' codec can't decode bytes")
    LoadSpecError = false
  ∧ isinstance (Raise UnicodeDecodeError "'utf-8' codec can't decode bytes")
      StorageError = false
  ∧ isinstance (Raise UnicodeDecodeError "'utf-8' codec can't decode bytes")
      DatabaseError = false.
Proof.
  apply (put_raises_only_unhandled sample.process sample.cfg sample.request
           sample.body_ff "spec 1" "1" "user 1" memory.empty_world
           memory.empty_world _ []).
  vm_compute. reflexivity.
Defined.

(** With tables that refuse writes the blob stays written. *)
Lemma put_failed_metadata_write_keeps_blob_witness :
  ∃ spec_str,
    storage_create_update_spec (storage faults.world_frozen)
      "user 1" "spec 1" "1" spec_str
    = (None,
       storage (faults.put_frozen sample.body_1 "spec 1" "1" "user 1"
                  faults.world_frozen).1.2)
    ∧ (faults.put_frozen sample.body_1 "spec 1" "1" "user 1"
         faults.world_frozen).2
      = [CheckWouldExceedFreeTier "user 1" 3;
         StorageCreateUpdateSpec "user 1" "spec 1" "1" spec_str None;
         DatabaseCreateUpdateSpec "user 1" "spec 1" "1" (Some "title") None 3
           (Some memory.unavailable)]
    ∧ (isinstance memory.unavailable DatabaseError = true →
       (faults.put_frozen sample.body_1 "spec 1" "1" "user 1"
          faults.world_frozen).1.1
       = inr {| server.response :=
                  Some "something went wrong whilst updating the database";
                server.status := 500;
                server.mimetype := Some "text/plain" |}).
Proof.
  apply (put_failed_metadata_write_keeps_blob sample.process sample.cfg
           sample.request sample.body_1 "spec 1" "1" "user 1"
           faults.world_frozen _ _ _ "user 1" "spec 1" "1" (Some "title") None 3
           memory.unavailable).
  - vm_compute. reflexivity.
  - vm_compute. do 2 apply list_elem_of_further. apply list_elem_of_here.
Defined.

Lemma put_quota_rejection_any_spec_id_witness :
  sample.put sample.body_1 "spec 3" "1" "user 1" sample.world_1
  = (inr {| server.response :=
              Some ("with this spec the maximum number of 5 models for the "
                    +:+ "free tier would be exceeded, current models count: 3, "
                    +:+ "models in this spec: 3");
            server.status := 402;
            server.mimetype := Some "text/plain" |},
     sample.world_1, [CheckWouldExceedFreeTier "user 1" 3])
  ∧ sample.world_1 = sample.world_1.
Proof.
  apply (put_quota_rejection_any_spec_id sample.process sample.cfg
           sample.request sample.body_1 "spec 2" "spec 3" "1" "user 1"
           sample.world_1).
  - vm_compute. reflexivity.
  - reflexivity.
Defined.

Lemma put_calls_confined_witness :
  le (length [CheckWouldExceedFreeTier "user 1" 3;
              StorageCreateUpdateSpec "user 1" "spec 1" "1" "{1}" None;
              DatabaseCreateUpdateSpec "user 1" "spec 1" "1" (Some "title") None
                3 None]) 3%nat
  ∧ Forall (put_call "user 1" "spec 1")
      [CheckWouldExceedFreeTier "user 1" 3;
       StorageCreateUpdateSpec "user 1" "spec 1" "1" "{1}" None;
       DatabaseCreateUpdateSpec "user 1" "spec 1" "1" (Some "title") None
         3 None].
Proof.
  apply (put_calls_confined sample.process sample.cfg sample.request
           sample.body_1 "spec 1" "1" "user 1" memory.empty_world sample.world_1
           (inr {| server.response := None; server.status := 204;
                   server.mimetype := None |})).
  vm_compute. reflexivity.
Defined.

Lemma put_check_fault_witness :
  sample.put sample.body_1 "spec 1" "1" "user 1" faults.world_database_down
  = (inr {| server.response :=
              Some "something went wrong whilst updating the database";
            server.status := 500;
            server.mimetype := Some "text/plain" |},
     faults.world_database_down, [CheckWouldExceedFreeTier "user 1" 3]).
Proof.
  apply (put_check_fault sample.process sample.cfg sample.request
           sample.body_1 "spec 1" "1" "user 1" faults.world_database_down
           "JSON" "1"
           {| spec.spec_str := "{1}"; spec.version := "1";
              spec.title := Some "title"; spec.description := None;
              spec.model_count := 3 |}
           memory.unavailable).
  - reflexivity.
  - reflexivity.
  - reflexivity.
  - reflexivity.
  - reflexivity.
  - reflexivity.
Defined.

(** Two customers with the same stored count, rejected with the same
    text. *)
Lemma check_would_exceed_free_tier_reason_inj_witness :
  config.free_tier_model_count sample.cfg
  = config.free_tier_model_count sample.cfg
  ∧ Database.count_customer_models (database sample.world_1) "user 1"
    = Database.count_customer_models sample.tables_2 "user 1"
  ∧ 3 = 3.
Proof.
  apply (check_would_exceed_free_tier_reason_inj sample.cfg sample.cfg
           (database sample.world_1) sample.tables_2 "user 1" "user 1" 3 3
           {| types.result := true;
              types.reason :=
                Some ("with this spec the maximum number of 5 models for the "
                      +:+ "free tier would be exceeded, current models count: 3, "
                      +:+ "models in this spec: 3") |}
           {| types.result := true;
              types.reason :=
                Some ("with this spec the maximum number of 5 models for the "
                      +:+ "free tier would be exceeded, current models count: 3, "
                      +:+ "models in this spec: 3") |}).
  - vm_compute. reflexivity.
  - vm_compute. reflexivity.
  - reflexivity.
  - reflexivity.
Defined.

Lemma get_prepare_raises_witness :
  (isinstance (Raise KeyError "info") StorageError = false →
   faults.get "spec 1" "2" "user 1" faults.blobs_2 = inl (Raise KeyError "info"))
  ∧ (isinstance (Raise KeyError "info") ObjectNotFoundError = true →
     faults.get "spec 1" "2" "user 1" faults.blobs_2 =
       inr {| server.response := Some "could not find the spec with id spec 1";
              server.status := 404;
              server.mimetype := Some "text/plain" |})
  ∧ (isinstance (Raise KeyError "info") ObjectNotFoundError = false →
     isinstance (Raise KeyError "info") StorageError = true →
     faults.get "spec 1" "2" "user 1" faults.blobs_2 =
       inr {| server.response :=
                Some "something went wrong whilst reading the spec";
              server.status := 500;
              server.mimetype := Some "text/plain" |}).
Proof.
  apply (get_prepare_raises faults.prepare "spec 1" "2" "user 1"
           faults.blobs_2 "" (Raise KeyError "info")).
  - vm_compute. reflexivity.
  - reflexivity.
Defined.
